(** * docsExtractor: a shallow embedding of [index.js] and [chatGPT.js]

    The program fetches web pages, converts them to markdown, has a remote
    chat-completion service restructure the markdown, writes both versions
    to disk and emits a run report.  This development embeds the two source
    files as Rocq functions over an explicit world state and an explicit
    environment of platform services, and proves properties of the run. *)

From Stdlib Require Import ZArith List Ascii String Lia Bool.
From Stdlib Require Import DecimalString.
From Stdlib Require Import Floats.SpecFloat.
From stdpp Require Import gmap strings.

Open Scope string_scope.

(** ** JavaScript numbers

    A JS number is an IEEE 754 binary64 value.  [spec_float] with
    [prec = 53] and [emax = 1024] is the Standard Library's executable
    specification of that format (round to nearest, ties to even). *)

Module Number.

Definition prec : Z := 53.
Definition emax : Z := 1024.

Definition number := spec_float.

(** An integer literal or a string length as a number. *)
Definition of_Z (z : Z) : number := binary_normalize prec emax z 0 false.

Definition sub : number -> number -> number := SFsub prec emax.
Definition mul : number -> number -> number := SFmul prec emax.
Definition div : number -> number -> number := SFdiv prec emax.

Definition is_finite (x : number) : bool :=
  match x with
  | S754_zero _ | S754_finite _ _ _ => true
  | S754_infinity _ | S754_nan => false
  end.

(** Zero or of positive sign (or not a number). *)
Definition non_negative (x : number) : bool :=
  match x with
  | S754_zero s | S754_infinity s | S754_finite s _ _ => negb s
  | S754_nan => true
  end.

(** [round_half_up m e k] is the integer [n] for which [n / 10^k] is
    closest to [m * 2^e]; of two equally close ones, the larger.  This is
    step 9.a of Number.prototype.toFixed, computed on the exact value of
    the double. *)
Definition round_half_up (m : positive) (e : Z) (k : nat) : Z :=
  let y := (Z.pos m * 10 ^ Z.of_nat k)%Z in
  if (0 <=? e)%Z then (y * 2 ^ e)%Z
  else ((2 * y + 2 ^ (- e)) / (2 * 2 ^ (- e)))%Z.

Definition digits (n : Z) : string :=
  NilZero.string_of_uint (N.to_uint (Z.to_N n)).

Fixpoint zeros (k : nat) : string :=
  match k with
  | O => ""
  | S k' => String "0" (zeros k')
  end.

(** Steps 9.b to 9.d: pad [n]'s digits to at least [f + 1] characters and
    put the decimal point before the last [f]. *)
Definition fixed_digits (n : Z) (f : nat) : string :=
  let m := digits n in
  match f with
  | O => m
  | _ =>
      let m := zeros (S f - String.length m) +:+ m in
      let k := String.length m in
      substring 0 (k - f) m +:+ "." +:+ substring (k - f) f m
  end.

Definition ten_pow_21 : Z := (10 ^ 21)%Z.

(** [x >= 10^21] for a positive finite [m * 2^e]. *)
Definition ge_ten_pow_21 (m : positive) (e : Z) : bool :=
  if (0 <=? e)%Z then (ten_pow_21 <=? Z.pos m * 2 ^ e)%Z
  else (ten_pow_21 * 2 ^ (- e) <=? Z.pos m)%Z.

(** Number.prototype.toFixed(fractionDigits).  [toString] stands for
    Number::toString, which the algorithm falls back to for finite values
    of magnitude at least 10^21 (step 8); its results on the non-finite
    values (step 4) are written out. *)
Definition toFixed (toString : number -> string) (x : number) (f : nat) : string :=
  match x with
  | S754_nan => "NaN"
  | S754_infinity false => "Infinity"
  | S754_infinity true => "-Infinity"
  | S754_zero _ => fixed_digits 0 f
  | S754_finite s m e =>
      (if s then "-" else "") +:+
      (if ge_ten_pow_21 m e then toString (S754_finite false m e)
       else fixed_digits (round_half_up m e f) f)
  end.

End Number.

(** ** Strings

    A JS string is modelled by a Rocq [string]; each character stands for
    one UTF-16 code unit (the code units below 256).  [js_length] is the
    [.length] property. *)

Definition js_length (s : string) : Z := Z.of_nat (String.length s).

(** ** Errors, outcomes and the effect monad

    A thrown value is an [Error] object; only its [message] is observed.
    A computation returns, throws, or ends the process through
    [process.exit], which no [catch] intercepts. *)

Record Error := mkError { message : string }.

Inductive outcome (A : Type) : Type :=
| Ret (a : A)
| Throw (e : Error)
| Exit (code : Z).

Arguments Ret {A} a.
Arguments Throw {A} e.
Arguments Exit {A} code.

(** ** The report object (index.js lines 137-144 and 150-170) *)

Record Paths := mkPaths { raw_path : string; clean_path : string }.

Inductive Detail :=
| Success (url fileName : string) (cleanSize rawSize : Z)
          (compression : string) (paths : Paths)
| Failure (url error timestamp : string).

Definition detail_url (d : Detail) : string :=
  match d with
  | Success url _ _ _ _ _ => url
  | Failure url _ _ => url
  end.

Definition detail_status (d : Detail) : string :=
  match d with
  | Success _ _ _ _ _ _ => "success"
  | Failure _ _ _ => "error"
  end.

Record Dirs := mkDirs { raw_dir : string; clean_dir : string; reports_dir : string }.

Record Report := mkReport {
  timestamp : string;
  total : Z;
  successes : Z;
  errors : Z;
  directories : Dirs;
  details : list Detail
}.

(** ** The world

    Files hold either text or a report; the latter stands for the report's
    [JSON.stringify] image.  The [trace] records, in order, every call the
    program makes to a platform service. *)

Inductive file_data :=
| Text (s : string)
| Json (r : Report).

Inductive event :=
| HttpGet (url : string)              (* axios.get *)
| Turndown                            (* turndownService.turndown *)
| ChatCompletion (url : string)       (* axios.post to the completions endpoint *)
| MkdirSync (dir : string)            (* fs.mkdirSync *)
| ReadFileSync (path : string)        (* fs.readFileSync *)
| WriteFileSync (path : string)       (* fs.writeFileSync *)
| SetTimeout (ms : Z)                 (* await of a setTimeout promise *)
| DateNow.                            (* new Date() *)

Record State := mkState {
  files : gmap string file_data;
  dirs : gset string;
  trace : list event;
  report : option Report              (* the object allocated at line 137 *)
}.

Definition M (A : Type) : Type := State -> outcome A * State.

Definition ret {A} (a : A) : M A := fun st => (Ret a, st).

Definition bind {A B} (m : M A) (k : A -> M B) : M B :=
  fun st =>
    match m st with
    | (Ret a, st') => k a st'
    | (Throw e, st') => (Throw e, st')
    | (Exit c, st') => (Exit c, st')
    end.

Definition throw {A} (e : Error) : M A := fun st => (Throw e, st).

(** [process.exit(code)] *)
Definition process_exit {A} (code : Z) : M A := fun st => (Exit code, st).

(** [try { m } catch (error) { handler error }] *)
Definition try_catch {A} (m : M A) (handler : Error -> M A) : M A :=
  fun st =>
    match m st with
    | (Throw e, st') => handler e st'
    | r => r
    end.

Declare Scope js_scope.
Delimit Scope js_scope with js.
Notation "x <- m ;; k" := (bind m (fun x => k))
  (at level 100, m at next level, right associativity) : js_scope.
Notation "m ;;; k" := (bind m (fun _ => k))
  (at level 100, right associativity) : js_scope.
Open Scope js_scope.

Definition emit (ev : event) : M unit :=
  fun st => (Ret tt, mkState (files st) (dirs st) (trace st ++ [ev]) (report st)).

Definition get_trace : M (list event) := fun st => (Ret (trace st), st).

(** Lift the answer of a platform service. *)
Definition lift {A} (r : Error + A) : M A :=
  match r with
  | inl e => throw e
  | inr a => ret a
  end.

(** ** URL records

    The two properties of a [URL] object that the program reads. *)

Record URL := mkURL { hostname : string; pathname : string }.

(** What [linksExtractor.json] holds, by the cases the program
    distinguishes: reading throws, parsing throws, the parsed value is not
    an array, or it is an array (here: of strings). *)
Inductive links_source :=
| LinksUnreadable (e : Error)
| LinksUnparsable (e : Error)
| LinksNotArray
| LinksArray (urls : list string).

(** What [response.data.choices[0].message.content] evaluates to at line
    130 of chatGPT.js when the property read does not throw: a string, or
    [null] or [undefined] for an answer whose message carries no content. *)
Inductive js_value :=
| JString (s : string)
| JNull
| JUndefined.

(** ** The environment: platform services and configuration

    Network, file-system and clock answers may depend on everything that
    happened before, so they take the trace so far. *)

Record Env := mkEnv {
  OPENAI_API_KEY : option string;      (* process.env.OPENAI_API_KEY, .env file loaded *)
  dirname : string;                                     (* __dirname *)
  URL_new : string -> option URL;                       (* new URL(url); None: TypeError *)
  axios_get : list event -> string -> Error + string;   (* response.data *)
  turndown : string -> Error + string;                  (* html to markdown *)
  axios_post : list event -> string -> string -> Error + js_value;
      (* for (markdownContent, url): the request throws, or the value of
         response.data.choices[0].message.content *)
  mkdir_error : list event -> string -> option Error;
  write_error : list event -> string -> option Error;
  linksExtractor_json : links_source;
  toISOString : list event -> string;                   (* new Date().toISOString() *)
  Number_toString : Number.number -> string
}.

(** ** Characters and the two regular-expression replacements of line 47 *)

Definition code (c : ascii) : N := N_of_ascii c.

Definition in_range (lo hi : N) (c : ascii) : bool :=
  ((lo <=? code c) && (code c <=? hi))%N.

Definition is_lower (c : ascii) : bool := in_range 97 122 c.
Definition is_upper (c : ascii) : bool := in_range 65 90 c.
Definition is_digit (c : ascii) : bool := in_range 48 57 c.
Definition is_alpha (c : ascii) : bool := is_lower c || is_upper c.

(** The class [[a-zA-Z0-9-_]]: letters, digits, hyphen and underscore. *)
Definition in_class (c : ascii) : bool :=
  is_lower c || is_upper c || is_digit c || (code c =? 45)%N || (code c =? 95)%N.

Definition is_slash (c : ascii) : bool := (code c =? 47)%N.

(** [/\/+$/] matches at the start of [s]: [s] is one or more slashes up to
    the end of the input. *)
Fixpoint slashes_to_end (s : string) : bool :=
  match s with
  | EmptyString => false
  | String c EmptyString => is_slash c
  | String c s' => is_slash c && slashes_to_end s'
  end.

(** [s.replace(/\/+$/, '')]: the leftmost match, if any, is removed. *)
Fixpoint strip_trailing_slashes (s : string) : string :=
  match s with
  | EmptyString => EmptyString
  | String c s' =>
      if slashes_to_end s then EmptyString
      else String c (strip_trailing_slashes s')
  end.

(** [s.replace(/[^a-zA-Z0-9-_]/g, '_')] *)
Fixpoint replace_outside_class (s : string) : string :=
  match s with
  | EmptyString => EmptyString
  | String c s' =>
      String (if in_class c then c else "_"%char) (replace_outside_class s')
  end.

(** ** generateFileName (index.js lines 45-50) *)

Definition invalid_url : Error := mkError "Invalid URL".

Definition generateFileName (env : Env) (url : string) : Error + string :=
  match URL_new env url with
  | None => inl invalid_url
  | Some urlObj =>
      let fileName :=
        hostname urlObj +:+
        replace_outside_class (strip_trailing_slashes (pathname urlObj)) in
      inr (if (String.eqb fileName "" || String.eqb fileName (hostname urlObj))%bool
           then fileName +:+ "_index"
           else fileName)
  end.

(** ** A model of the URL parser on plain http(s) URLs

    [WHATWG.parse] follows the WHATWG basic URL parser (no base URL) through
    its scheme, authority, host, port and path states on the inputs where
    those states neither normalise nor encode anything: scheme http or
    https; no credentials; a host made of non-empty labels of letters,
    digits, hyphen and underscore, the last label not starting with a digit
    and no label starting with xn--; an optional decimal port up to 65535; a
    path of printable characters outside the path percent-encode set,
    without backslash and with no segment starting with a dot or a percent
    sign; then an optional query or fragment.  An input with no scheme is a
    parse failure in the standard and here.  Other inputs are outside the
    model and also give [None]; no statement below evaluates it there. *)

Module WHATWG.

Definition to_lower (c : ascii) : ascii :=
  if is_upper c then ascii_of_N (code c + 32) else c.

Fixpoint lower (s : string) : string :=
  match s with
  | EmptyString => EmptyString
  | String c s' => String (to_lower c) (lower s')
  end.

(** C0 control or space. *)
Definition is_c0_or_space (c : ascii) : bool := (code c <=? 32)%N.

Fixpoint drop_leading (s : string) : string :=
  match s with
  | String c s' => if is_c0_or_space c then drop_leading s' else s
  | EmptyString => EmptyString
  end.

Fixpoint all_c0_or_space (s : string) : bool :=
  match s with
  | EmptyString => true
  | String c s' => is_c0_or_space c && all_c0_or_space s'
  end.

Fixpoint drop_trailing (s : string) : string :=
  match s with
  | EmptyString => EmptyString
  | String c s' => if all_c0_or_space s then EmptyString else String c (drop_trailing s')
  end.

Definition is_tab_or_newline (c : ascii) : bool :=
  ((code c =? 9) || (code c =? 10) || (code c =? 13))%N.

Fixpoint remove_tab_newline (s : string) : string :=
  match s with
  | EmptyString => EmptyString
  | String c s' =>
      if is_tab_or_newline c then remove_tab_newline s'
      else String c (remove_tab_newline s')
  end.

(** Split [s] at the first character satisfying [p]. *)
Fixpoint break (p : ascii -> bool) (s : string) : string * string :=
  match s with
  | EmptyString => (EmptyString, EmptyString)
  | String c s' =>
      if p c then (EmptyString, s)
      else let '(a, b) := break p s' in (String c a, b)
  end.

Fixpoint forallb_string (p : ascii -> bool) (s : string) : bool :=
  match s with
  | EmptyString => true
  | String c s' => p c && forallb_string p s'
  end.

Definition is_scheme_char (c : ascii) : bool :=
  is_alpha c || is_digit c || (code c =? 43)%N || (code c =? 45)%N || (code c =? 46)%N.

Definition is_colon (c : ascii) : bool := (code c =? 58)%N.
Definition is_dot (c : ascii) : bool := (code c =? 46)%N.
Definition is_percent (c : ascii) : bool := (code c =? 37)%N.
Definition is_backslash (c : ascii) : bool := (code c =? 92)%N.
Definition is_slash_or_backslash (c : ascii) : bool := is_slash c || is_backslash c.

(** Scheme start and scheme states: a letter, then scheme characters up
    to a colon.  Anything else is "no scheme", a failure without a base. *)
Definition scheme (s : string) : option (string * string) :=
  match s with
  | String c _ =>
      if is_alpha c then
        match break (fun c => negb (is_scheme_char c)) s with
        | (sch, String d rest) => if is_colon d then Some (lower sch, rest) else None
        | _ => None
        end
      else None
  | EmptyString => None
  end.

Fixpoint skip_slashes (s : string) : string :=
  match s with
  | String c s' => if is_slash_or_backslash c then skip_slashes s' else s
  | EmptyString => EmptyString
  end.

(** End of the authority: slash, backslash, question mark or hash. *)
Definition ends_authority (c : ascii) : bool :=
  is_slash_or_backslash c || (code c =? 63)%N || (code c =? 35)%N.

Definition ends_path (c : ascii) : bool := ((code c =? 63) || (code c =? 35))%N.

Definition is_label_char (c : ascii) : bool := in_class c.

Definition starts_with_xn (l : string) : bool :=
  String.eqb (substring 0 4 (lower l)) "xn--".

Definition label_ok (l : string) : bool :=
  negb (String.eqb l "") && forallb_string is_label_char l && negb (starts_with_xn l).

(** Labels of a host, split at the dots. *)
Fixpoint labels (fuel : nat) (h : string) : list string :=
  match fuel with
  | O => [h]
  | S fuel' =>
      match break is_dot h with
      | (l, String _ rest) => l :: labels fuel' rest
      | (l, EmptyString) => [l]
      end
  end.

Definition host_ok (h : string) : bool :=
  let ls := labels (String.length h) h in
  forallb label_ok ls &&
  match List.last ls "" with
  | String c _ => negb (is_digit c)
  | EmptyString => false
  end.

Definition port_value (p : string) : N :=
  N.of_uint (match NilEmpty.uint_of_string p with Some u => u | None => Decimal.Nil end).

Definition port_ok (p : string) : bool :=
  forallb_string is_digit p && (String.length p <=? 5)%nat && (port_value p <=? 65535)%N.

(** Printable and outside the path percent-encode set, backslash excluded. *)
Definition path_char_ok (c : ascii) : bool :=
  in_range 33 126 c &&
  negb (existsb (N.eqb (code c)) [34; 35; 60; 62; 63; 92; 94; 96; 123; 125]%N).

Fixpoint segments_ok (at_start : bool) (p : string) : bool :=
  match p with
  | EmptyString => true
  | String c p' =>
      path_char_ok c &&
      negb (at_start && (is_dot c || is_percent c)) &&
      segments_ok (is_slash c) p'
  end.

Definition parse (input : string) : option URL :=
  let s := remove_tab_newline (drop_trailing (drop_leading input)) in
  match scheme s with
  | Some (sch, rest) =>
      if (String.eqb sch "http" || String.eqb sch "https")%bool then
        let '(authority, after) := break ends_authority (skip_slashes rest) in
        let '(host, port) := break is_colon authority in
        let port := match port with String _ p => p | EmptyString => EmptyString end in
        let '(path, _) := break ends_path after in
        if (host_ok host && port_ok port && segments_ok false path)%bool
        then Some {| hostname := lower host;
                     pathname := match path with EmptyString => "/" | _ => path end |}
        else None
      else None
  | None => None
  end.

End WHATWG.

(** ** Paths and the directory configuration (index.js lines 23-27)

    [path.join(a, b)] on POSIX normalises the joined path.  It is the
    concatenation below when [a] is a normalised path other than the root
    and [b] is a single segment: not empty, free of slashes and neither
    [.] nor [..].  The program's own calls are of this kind: [__dirname]
    is a normalised absolute path, the directory names are literals, the
    report names are [report_ ... .json], and the markdown names are a
    generated file name followed by [.md]; such a segment needs no
    normalisation as long as the name holds no slash ([slash_free]). *)

Definition path_join (a b : string) : string := a +:+ "/" +:+ b.

Fixpoint slash_free (s : string) : bool :=
  match s with
  | EmptyString => true
  | String c s' => negb (is_slash c) && slash_free s'
  end.

Definition DIRS (env : Env) : Dirs :=
  {| raw_dir := path_join (path_join (dirname env) "output") "raw";
     clean_dir := path_join (path_join (dirname env) "output") "clean";
     reports_dir := path_join (path_join (dirname env) "output") "reports" |}.

(** ** Platform calls as computations *)

Definition set_files (fs : gmap string file_data) (st : State) : State :=
  mkState fs (dirs st) (trace st) (report st).

Definition set_dirs (ds : gset string) (st : State) : State :=
  mkState (files st) ds (trace st) (report st).

Definition set_report (r : option Report) (st : State) : State :=
  mkState (files st) (dirs st) (trace st) r.

(** [fs.existsSync] *)
Definition existsSync (path : string) : M bool :=
  fun st =>
    (Ret (bool_decide (path ∈ dirs st) || bool_decide (is_Some (files st !! path))), st).

(** [fs.mkdirSync(dir, { recursive: true })] *)
Definition mkdirSync (env : Env) (dir : string) : M unit :=
  h <- get_trace;;
  emit (MkdirSync dir);;;
  match mkdir_error env h dir with
  | Some e => throw e
  | None => fun st => (Ret tt, set_dirs ({[dir]} ∪ dirs st) st)
  end.

(** [fs.writeFileSync(path, data)]: the file is replaced, or the call
    throws and the file is left as it was. *)
Definition writeFileSync (env : Env) (path : string) (data : file_data) : M unit :=
  h <- get_trace;;
  emit (WriteFileSync path);;;
  match write_error env h path with
  | Some e => throw e
  | None => fun st => (Ret tt, set_files (<[path := data]> (files st)) st)
  end.

(** The [TypeError] (code [ERR_INVALID_ARG_TYPE]) of [fs.writeFileSync] for
    data that is [null] or [undefined]. *)
Definition dquote : string := String "034"%char EmptyString.

Definition invalid_data (received : string) : Error :=
  mkError ("The " +:+ dquote +:+ "data" +:+ dquote +:+
           " argument must be of type string or an instance of Buffer, TypedArray, or DataView. Received "
           +:+ received).

(** The string that [fs.writeFileSync] accepts as data.  The check comes
    before the file is opened. *)
Definition string_data (v : js_value) : Error + string :=
  match v with
  | JString s => inr s
  | JNull => inl (invalid_data "null")
  | JUndefined => inl (invalid_data "undefined")
  end.

(** [fs.writeFileSync(path, v)] for a value [v] that may not be a string:
    the call throws before it touches the file, or it writes the string,
    which is returned for the code that follows the call. *)
Definition writeFileSync_value (env : Env) (path : string) (v : js_value) : M string :=
  match string_data v with
  | inl e => emit (WriteFileSync path);;; throw e
  | inr s => writeFileSync env path (Text s);;; ret s
  end.

(** [await axios.get(url, ...)] followed by [response.data] *)
Definition http_get (env : Env) (url : string) : M string :=
  h <- get_trace;;
  emit (HttpGet url);;;
  lift (axios_get env h url).

(** [turndownService.turndown(html)] *)
Definition turndown_call (env : Env) (html : string) : M string :=
  emit Turndown;;;
  lift (turndown env html).

(** [new Date().toISOString()] *)
Definition now (env : Env) : M string :=
  h <- get_trace;;
  emit DateNow;;;
  ret (toISOString env h).

(** [await new Promise(resolve => setTimeout(resolve, ms))] *)
Definition sleep (ms : Z) : M unit := emit (SetTimeout ms).

(** ** ChatGPTService.organizeMarkdown (chatGPT.js lines 20-135)

    The request body is a fixed template around [markdownContent] and
    [url]; the service's answer is taken per such pair.  A failed request
    throws inside the [try], and so does the property read of line 130 on
    a response without [choices[0]] or without its [message]; the [catch]
    rethrows.  A response whose message has no [content] does not throw:
    line 130 returns [undefined] or [null] to the caller. *)

Definition organizeMarkdown (env : Env) (markdownContent url : string) : M js_value :=
  try_catch
    (h <- get_trace;;
     emit (ChatCompletion url);;;
     lift (axios_post env h markdownContent url))
    (fun error => throw error).

(** ** createDirectories (index.js lines 32-38) *)

Definition ensure_dir (env : Env) (dir : string) : M unit :=
  ex <- existsSync dir;;
  if ex then ret tt else mkdirSync env dir.

Definition createDirectories (env : Env) : M unit :=
  ensure_dir env (raw_dir (DIRS env));;;
  ensure_dir env (clean_dir (DIRS env));;;
  ensure_dir env (reports_dir (DIRS env)).

(** ** extractToMarkdown (index.js lines 57-107)

    [cleanMarkdown] is whatever [organizeMarkdown] returned.  Line 90 writes
    the raw file and line 91 hands [cleanMarkdown] to [fs.writeFileSync];
    past line 91 it is a string, the one the result carries. *)

Record ExtractionResult := mkExtractionResult {
  clean : string;
  raw : string;
  paths : Paths;
  fileName : string
}.

(** Lines 86-87: [path.join(DIRS.raw, `${fileName}.md`)] and its clean twin. *)
Definition rawPath (env : Env) (name : string) : string :=
  path_join (raw_dir (DIRS env)) (name +:+ ".md").

Definition cleanPath (env : Env) (name : string) : string :=
  path_join (clean_dir (DIRS env)) (name +:+ ".md").

Definition extractToMarkdown (env : Env) (url : string) : M ExtractionResult :=
  try_catch
    (html <- http_get env url;;
     rawMarkdown <- turndown_call env html;;
     cleanMarkdown <- organizeMarkdown env rawMarkdown url;;
     fileName <- lift (generateFileName env url);;
     timestamp <- now env;;              (* line 83: the value is not used *)
     writeFileSync env (rawPath env fileName) (Text rawMarkdown);;;
     cleanMarkdown <- writeFileSync_value env (cleanPath env fileName) cleanMarkdown;;
     ret {| clean := cleanMarkdown;
            raw := rawMarkdown;
            paths := {| raw_path := rawPath env fileName;
                        clean_path := cleanPath env fileName |};
            fileName := fileName |})
    (fun error => throw error).

(** ** processLinks (index.js lines 112-199) *)

(** Reads and updates of the [report] variable. *)
Definition the_report : M Report :=
  fun st =>
    match report st with
    | Some r => (Ret r, st)
    | None => (Throw (mkError "report is not defined"), st)
    end.

Definition update_report (f : Report -> Report) : M unit :=
  r <- the_report;;
  fun st => (Ret tt, set_report (Some (f r)) st).

Definition incr_successes (r : Report) : Report :=
  mkReport (timestamp r) (total r) (successes r + 1) (errors r) (directories r) (details r).

Definition incr_errors (r : Report) : Report :=
  mkReport (timestamp r) (total r) (successes r) (errors r + 1) (directories r) (details r).

Definition push_detail (d : Detail) (r : Report) : Report :=
  mkReport (timestamp r) (total r) (successes r) (errors r) (directories r) (details r ++ [d]).

(** Line 156: [(1 - clean.length / raw.length) * 100], then [toFixed(1)]
    and a percent sign. *)
Definition compression_number (cleanSize rawSize : Z) : Number.number :=
  Number.mul
    (Number.sub (Number.of_Z 1) (Number.div (Number.of_Z cleanSize) (Number.of_Z rawSize)))
    (Number.of_Z 100).

Definition compression_string (env : Env) (cleanSize rawSize : Z) : string :=
  Number.toFixed (Number_toString env) (compression_number cleanSize rawSize) 1 +:+ "%".

Definition success_detail (env : Env) (url : string) (result : ExtractionResult) : Detail :=
  Success url (fileName result) (js_length (clean result)) (js_length (raw result))
          (compression_string env (js_length (clean result)) (js_length (raw result)))
          (paths result).

(** The body of the [for] loop, lines 147-171. *)
Definition loop_body (env : Env) (url : string) : M unit :=
  try_catch
    (result <- extractToMarkdown env url;;
     update_report incr_successes;;;
     update_report (push_detail (success_detail env url result));;;
     sleep 1000)
    (fun error =>
       update_report incr_errors;;;
       ts <- now env;;
       update_report (push_detail (Failure url (message error) ts))).

Fixpoint for_of {A} (l : list A) (body : A -> M unit) : M unit :=
  match l with
  | [] => ret tt
  | x :: l' => body x;;; for_of l' body
  end.

(** Lines 116-129: the URL list, or [process.exit(1)]. *)
Definition linksPath (env : Env) : string := path_join (dirname env) "linksExtractor.json".

Definition load_links (env : Env) : M (list string) :=
  links <- try_catch
             (emit (ReadFileSync (linksPath env));;;
              match linksExtractor_json env with
              | LinksUnreadable e => throw e
              | LinksUnparsable e => throw e
              | parsed => ret parsed
              end)
             (fun e => process_exit 1);;
  match links with
  | LinksArray (u :: us) => ret (u :: us)
  | _ => process_exit 1
  end.

(** Lines 137-172: allocate the report and run the loop. *)
Definition run_links (env : Env) (links : list string) : M unit :=
  ts <- now env;;
  (fun st => (Ret tt, set_report (Some {| timestamp := ts;
                                          total := Z.of_nat (length links);
                                          successes := 0;
                                          errors := 0;
                                          directories := DIRS env;
                                          details := [] |}) st));;;
  for_of links (loop_body env).

(** [s.replace(/[:.]/g, '-')] *)
Fixpoint replace_colon_dot (s : string) : string :=
  match s with
  | EmptyString => EmptyString
  | String c s' =>
      String (if ((code c =? 58) || (code c =? 46))%N then "-"%char else c)
             (replace_colon_dot s')
  end.

Definition reportLatestPath (env : Env) : string :=
  path_join (reports_dir (DIRS env)) "report_latest.json".

(** Lines 175-180: the two report files. *)
Definition save_report (env : Env) : M unit :=
  ts <- now env;;
  let reportPath :=
    path_join (reports_dir (DIRS env)) ("report_" +:+ replace_colon_dot ts +:+ ".json") in
  r <- the_report;;
  writeFileSync env reportPath (Json r);;;
  r <- the_report;;
  writeFileSync env (reportLatestPath env) (Json r).

(** The console output (lines 131-135 and 182-198) has no other effect and
    is left out. *)
Definition processLinks (env : Env) : M unit :=
  createDirectories env;;;
  links <- load_links env;;
  run_links env links;;;
  save_report env.

(** ** The process: module top level (lines 13-20 and 202-204)

    The file is run as the main module.  [!OPENAI_API_KEY] holds for an
    absent and for an empty variable. *)

Definition falsy (v : option string) : bool :=
  match v with
  | None => true
  | Some s => String.eqb s ""
  end.

Definition init_state (fs : gmap string file_data) (ds : gset string) : State :=
  {| files := fs; dirs := ds; trace := []; report := None |}.

Definition main (env : Env) (fs : gmap string file_data) (ds : gset string)
  : outcome unit * State :=
  if falsy (OPENAI_API_KEY env) then process_exit 1 (init_state fs ds)
  else processLinks env (init_state fs ds).


(** ** Sample environments *)

Module Sample.

Definition no_error (_ : list event) (_ : string) : option Error := None.

Definition page_html : string := "<h1>Title</h1><p>Body text of the page</p>".
Definition page_raw : string := "# Title

Body text of the page".
Definition page_clean : string := "# Title".

Definition fetch_ok (_ : list event) (_ : string) : Error + string := inr page_html.
Definition convert_ok (_ : string) : Error + string := inr page_raw.
Definition clean_ok (_ : list event) (_ _ : string) : Error + js_value :=
  inr (JString page_clean).

Definition make (key : option string)
           (get : list event -> string -> Error + string)
           (convert : string -> Error + string)
           (post : list event -> string -> string -> Error + js_value)
           (werr : list event -> string -> option Error)
           (links : links_source) : Env :=
  {| OPENAI_API_KEY := key;
     dirname := "/app";
     URL_new := WHATWG.parse;
     axios_get := get;
     turndown := convert;
     axios_post := post;
     mkdir_error := no_error;
     write_error := werr;
     linksExtractor_json := links;
     toISOString := fun _ => "2025-07-05T14:44:24.939Z";
     Number_toString := fun _ => "1e+21" |}.

Definition a_test_x : string := "https://a.test/x".
Definition one_link : links_source := LinksArray [a_test_x].

(** Every service answers. *)
Definition healthy (links : links_source) : Env :=
  make (Some "sk-test") fetch_ok convert_ok clean_ok no_error links.

(** The second of three pages is not found. *)
Definition not_found : Error := mkError "Request failed with status code 404".

Definition three_links : list string :=
  [a_test_x; "https://b.test/missing"; "https://example.com/docs/page"].

Definition mixed : Env :=
  make (Some "sk-test")
       (fun _ url => if String.eqb url "https://b.test/missing" then inl not_found
                     else inr page_html)
       convert_ok clean_ok no_error (LinksArray three_links).

(** The completion service turns the first of two pages away. *)
Definition too_many_requests : Error := mkError "Request failed with status code 429".

Definition two_links : list string := [a_test_x; "https://example.com/docs/page"].

Definition rate_limited : Env :=
  make (Some "sk-test") fetch_ok convert_ok
       (fun _ _ url => if String.eqb url a_test_x then inl too_many_requests
                       else inr (JString page_clean))
       no_error (LinksArray two_links).

(** The completion service rejects the credential. *)
Definition unauthorized : Error := mkError "Request failed with status code 401".

Definition clean_fails : Env :=
  make (Some "sk-test") fetch_ok convert_ok (fun _ _ _ => inl unauthorized) no_error
       one_link.

(** The clean directory is not writable. *)
Definition denied : Error := mkError "EACCES: permission denied".



(** The completion service answers with a message that has no content. *)
Definition no_content : Env :=
  make (Some "sk-test") fetch_ok convert_ok (fun _ _ _ => inr JNull) no_error one_link.

(** The page converts to the empty markdown. *)
Definition empty_raw : Env :=
  make (Some "sk-test") fetch_ok (fun _ => inr "") clean_ok no_error one_link.


Definition empty_state : State := {| files := ∅; dirs := ∅; trace := []; report := None |}.

End Sample.

(** The delays of a run: the one-second timeouts in its trace. *)
Definition is_delay (ev : event) : bool :=
  match ev with
  | SetTimeout ms => (ms =? 1000)%Z
  | _ => false
  end.

Definition delays (t : list event) : nat := length (List.filter is_delay t).

Arguments delays : simpl never.

(** The platform calls of one URL's pipeline, in stage order: fetch,
    convert, remote-clean, (clock read), persist raw, persist clean. *)
Definition stage_events (env : Env) (url name : string) : list event :=
  [HttpGet url; Turndown; ChatCompletion url; DateNow;
   WriteFileSync (rawPath env name); WriteFileSync (cleanPath env name)].

(** ** Auxiliary definitions for the properties

    [keeps obs m]: the computation [m] leaves the observation [obs] of the
    state unchanged. *)

Definition keeps {X A : Type} (obs : State -> X) (m : M A) : Prop :=
  forall st, obs (snd (m st)) = obs st.

(** Computations that never end the process. *)
Definition no_exit {A} (m : M A) : Prop := forall st c, fst (m st) <> Exit c.

(** The state after the events [evs] have been recorded. *)
Definition add_events (evs : list event) (st : State) : State :=
  mkState (files st) (dirs st) (trace st ++ evs) (report st).

(** The answer of the clean write of line 91 after the events [h]: the
    error it throws, for data that is not a string or for a file that cannot
    be written, or the string it writes. *)
Definition clean_write (env : Env) (h : list event) (path : string) (content : js_value)
  : Error + string :=
  match string_data content with
  | inl e => inl e
  | inr s =>
      match write_error env h path with
      | Some e => inl e
      | None => inr s
      end
  end.


(** The outcome and the final state of one extraction, by the first stage
    that fails. *)
Definition extraction_cases (env : Env) (url : string) (st : State)
  : outcome ExtractionResult * State :=
  let h := trace st in
  match axios_get env h url with
  | inl e => (Throw e, add_events [HttpGet url] st)
  | inr html =>
  match turndown env html with
  | inl e => (Throw e, add_events [HttpGet url; Turndown] st)
  | inr rawMarkdown =>
  match axios_post env (h ++ [HttpGet url; Turndown]) rawMarkdown url with
  | inl e => (Throw e, add_events [HttpGet url; Turndown; ChatCompletion url] st)
  | inr content =>
  match generateFileName env url with
  | inl e => (Throw e, add_events [HttpGet url; Turndown; ChatCompletion url] st)
  | inr name =>
  let stages := stage_events env url name in
  match write_error env (h ++ take 4 stages) (rawPath env name) with
  | Some e => (Throw e, add_events (take 5 stages) st)
  | None =>
  match clean_write env (h ++ take 5 stages) (cleanPath env name) content with
  | inl e =>
      (Throw e,
       set_files (<[rawPath env name := Text rawMarkdown]> (files st))
                 (add_events stages st))
  | inr cleanMarkdown =>
      (Ret {| clean := cleanMarkdown;
              raw := rawMarkdown;
              paths := {| raw_path := rawPath env name;
                          clean_path := cleanPath env name |};
              fileName := name |},
       set_files (<[cleanPath env name := Text cleanMarkdown]>
                    (<[rawPath env name := Text rawMarkdown]> (files st)))
                 (add_events stages st))
  end end end end end end.

(** One iteration of the loop on the report [r], by the outcome of the
    extraction. *)
Definition loop_cases (env : Env) (url : string) (r : Report) (st : State)
  : outcome unit * State :=
  match extraction_cases env url st with
  | (Ret result, st1) =>
      (Ret tt,
       add_events [SetTimeout 1000]
         (set_report
            (Some (push_detail (success_detail env url result) (incr_successes r))) st1))
  | (Throw error, st1) =>
      (Ret tt,
       set_report
         (Some (push_detail (Failure url (message error) (toISOString env (trace st1)))
                            (incr_errors r)))
         (add_events [DateNow] st1))
  | (Exit c, st1) => (Exit c, st1)
  end.

(** A success entry records the figures of line 154-156. *)
Definition detail_consistent (env : Env) (d : Detail) : Prop :=
  match d with
  | Success _ _ cleanSize rawSize compression _ =>
      compression = compression_string env cleanSize rawSize
  | Failure _ _ _ => True
  end.

(** Entries with status "success". *)
Definition is_success (d : Detail) : bool :=
  match d with
  | Success _ _ _ _ _ _ => true
  | Failure _ _ _ => false
  end.

(** What running the loop over [urls] from state [st] with report [r]
    establishes of the final state [st'] and report [r']. *)
Record loop_post (env : Env) (urls : list string)
       (st : State) (r : Report) (st' : State) (r' : Report) : Prop := {
  post_report : report st' = Some r';
  post_timestamp : timestamp r' = timestamp r;
  post_total : total r' = total r;
  post_directories : directories r' = directories r;
  post_successes : (successes r <= successes r')%Z;
  post_errors : (errors r <= errors r')%Z;
  post_counts :
    (successes r' + errors r' = successes r + errors r + Z.of_nat (length urls))%Z;
  post_details : exists ds, details r' = (details r ++ ds)%list /\
                            List.map detail_url ds = urls /\
                            Forall (detail_consistent env) ds /\
                            (Z.of_nat (length (List.filter is_success ds))
                             = successes r' - successes r)%Z;
  post_delays :
    (Z.of_nat (delays (trace st'))
     = Z.of_nat (delays (trace st)) + (successes r' - successes r))%Z;
  post_dirs : dirs st' = dirs st
}.

(** Events of a kind: the computation only appends events satisfying [P]. *)
Definition emits (P : event -> Prop) {A} (m : M A) : Prop :=
  forall st, exists evs, trace (snd (m st)) = (trace st ++ evs)%list /\ Forall P evs.

(** The events of [createDirectories]. *)
Definition is_mkdir (ev : event) : Prop := exists d, ev = MkdirSync d.

(** The URL list is usable when it is a non-empty array. *)
Definition usable (l : links_source) : option (list string) :=
  match l with
  | LinksArray (u :: us) => Some (u :: us)
  | _ => None
  end.

(** The report as allocated at line 137. *)
Definition new_report (env : Env) (ts : string) (links : list string) : Report :=
  {| timestamp := ts;
     total := Z.of_nat (length links);
     successes := 0;
     errors := 0;
     directories := DIRS env;
     details := [] |}.

(** The time-stamped report file of line 176. *)
Definition reportPath (env : Env) (ts : string) : string :=
  path_join (reports_dir (DIRS env)) ("report_" +:+ replace_colon_dot ts +:+ ".json").

(** Saving the report [r], by the first write that fails. *)
Definition save_cases (env : Env) (r : Report) (st : State) : outcome unit * State :=
  let h := trace st in
  let rp := reportPath env (toISOString env h) in
  match write_error env (h ++ [DateNow]) rp with
  | Some e => (Throw e, add_events [DateNow; WriteFileSync rp] st)
  | None =>
  let evs := [DateNow; WriteFileSync rp; WriteFileSync (reportLatestPath env)] in
  match write_error env (h ++ [DateNow; WriteFileSync rp]) (reportLatestPath env) with
  | Some e => (Throw e, set_files (<[rp := Json r]> (files st)) (add_events evs st))
  | None =>
      (Ret tt,
       set_files (<[reportLatestPath env := Json r]> (<[rp := Json r]> (files st)))
                 (add_events evs st))
  end end.

(** The process, by the phase that ends it. *)
Definition main_cases (env : Env) (fs : gmap string file_data) (ds : gset string)
  : outcome unit * State :=
  if falsy (OPENAI_API_KEY env) then (Exit 1, init_state fs ds)
  else
    match createDirectories env (init_state fs ds) with
    | (Ret _, st1) =>
        let st2 := add_events [ReadFileSync (linksPath env)] st1 in
        match usable (linksExtractor_json env) with
        | None => (Exit 1, st2)
        | Some urls =>
            match run_links env urls st2 with
            | (Ret _, st3) => save_report env st3
            | (Throw e, st3) => (Throw e, st3)
            | (Exit c, st3) => (Exit c, st3)
            end
        end
    | (Throw e, st1) => (Throw e, st1)
    | (Exit c, st1) => (Exit c, st1)
    end.

(** The state in which the loop starts, and the report it starts with. *)
Definition loop_start (env : Env) (urls : list string) (st1 : State) : State * Report :=
  let st2 := add_events [ReadFileSync (linksPath env)] st1 in
  let r0 := new_report env (toISOString env (trace st2)) urls in
  (set_report (Some r0) (add_events [DateNow] st2), r0).


(** Every write of the event goes to the reports directory. *)
Definition under_reports (env : Env) (ev : event) : Prop :=
  match ev with
  | WriteFileSync p => exists f, p = path_join (reports_dir (DIRS env)) f
  | _ => True
  end.

(** No write was attempted under the raw or the clean directory, and the
    files there are those of the initial file tree [fs]. *)
Definition no_pipeline_write (env : Env) (fs : gmap string file_data) (st' : State)
  : Prop :=
  forall name,
    (WriteFileSync (rawPath env name) ∉ trace st') /\
    (WriteFileSync (cleanPath env name) ∉ trace st') /\
    files st' !! rawPath env name = fs !! rawPath env name /\
    files st' !! cleanPath env name = fs !! cleanPath env name.

(** The description's character set, written out. *)
Definition allowed_chars : string :=
  "ABCDEFGHIJKLMNOPQRSTUVWXYZabcdefghijklmnopqrstuvwxyz0123456789-_".

(** Membership in that set. *)
Definition allowed (c : ascii) : bool :=
  existsb (Ascii.eqb c) (list_ascii_of_string allowed_chars).

(** The list without its longest prefix of elements satisfying [p]. *)
Fixpoint drop_while {A} (p : A -> bool) (l : list A) : list A :=
  match l with
  | [] => []
  | x :: l' => if p x then drop_while p l' else l
  end.

(** "Strips trailing slashes and replaces every character outside the set
    with an underscore", on the list of characters. *)
Definition described_sanitize (path : string) : string :=
  string_of_list_ascii
    (List.map (fun c => if allowed c then c else "_"%char)
       (List.rev (drop_while (Ascii.eqb "/"%char) (List.rev (list_ascii_of_string path))))).

(** "hostname + sanitized(path); if the result is empty or equals the bare
    hostname, append a literal _index suffix". *)
Definition described_file_name (u : URL) : string :=
  let name := hostname u +:+ described_sanitize (pathname u) in
  if decide (name = "" \/ name = hostname u) then name +:+ "_index" else name.

(** [n] is the integer nearest to [10 * m * 2^e], the upper one of two:
    [n - 1/2 <= 10 * m * 2^e < n + 1/2], cleared of denominators. *)
Definition nearest_tenth (n : Z) (m : positive) (e : Z) : Prop :=
  (2 ^ Z.max 0 (- e) * (2 * n - 1) <= 20 * Z.pos m * 2 ^ Z.max 0 e
   < 2 ^ Z.max 0 (- e) * (2 * n + 1))%Z.



(** ** Sample states

    The state right after the report has been allocated, the result of
    extracting the sample page, and the state the extraction leaves. *)

Definition sample_report (env : Env) : Report :=
  new_report env "2025-07-05T14:44:24.939Z" [Sample.a_test_x].

Definition sample_started (env : Env) : State :=
  set_report (Some (sample_report env)) (init_state ∅ ∅).

Definition sample_result (rawMarkdown : string) : ExtractionResult :=
  {| clean := Sample.page_clean;
     raw := rawMarkdown;
     paths := {| raw_path := "/app/output/raw/a.test_x.md";
                 clean_path := "/app/output/clean/a.test_x.md" |};
     fileName := "a.test_x" |}.

Definition sample_extracted (env : Env) : State :=
  snd (extractToMarkdown env Sample.a_test_x (sample_started env)).

Definition example_docs_page : URL :=
  {| hostname := "example.com"; pathname := "/docs/page" |}.

Definition a_test_v1_2 : URL := {| hostname := "a.test"; pathname := "/v1.2" |}.

(** ** ChatGPTService.validateMarkdownQuality (chatGPT.js lines 142-154) *)

(** [sub] occurs at the start of [s]. *)
Fixpoint starts_with (sub s : string) : bool :=
  match sub, s with
  | EmptyString, _ => true
  | String a sub', String b s' => Ascii.eqb a b && starts_with sub' s'
  | String _ _, EmptyString => false
  end.

(** [s.includes(sub)] *)
Fixpoint includes (s sub : string) : bool :=
  starts_with sub s ||
  match s with
  | EmptyString => false
  | String _ s' => includes s' sub
  end.

(** [s.split(sep)] for a separator of one character. *)
Fixpoint split_char (sep : ascii) (s : string) : list string :=
  match s with
  | EmptyString => [EmptyString]
  | String c s' =>
      if Ascii.eqb c sep then EmptyString :: split_char sep s'
      else match split_char sep s' with
           | piece :: pieces => String c piece :: pieces
           | [] => [String c EmptyString]
           end
  end.

Definition newline : ascii := "010"%char.
Definition space : ascii := " "%char.

Module Quality.

Record metrics := mkMetrics {
  hasMainTitle : bool;
  hasStructure : bool;
  hasFormatting : bool;
  hasCode : bool;
  size : Z;
  lines : Z;
  density : Number.number
}.

End Quality.

Definition validateMarkdownQuality (markdown : string) : Quality.metrics :=
  {| Quality.hasMainTitle := includes markdown "# ";
     Quality.hasStructure := includes markdown "## ";
     Quality.hasFormatting := includes markdown "**" || includes markdown "*";
     Quality.hasCode := includes markdown "```";
     Quality.size := js_length markdown;
     Quality.lines := Z.of_nat (length (split_char newline markdown));
     Quality.density :=
       Number.div (Number.of_Z (Z.of_nat (length (split_char space markdown))))
                  (Number.of_Z (Z.of_nat (length (split_char newline markdown)))) |}.

(** [pieces.join(sep)], the inverse of [split]. *)
Fixpoint join_char (sep : ascii) (pieces : list string) : string :=
  match pieces with
  | [] => EmptyString
  | [piece] => piece
  | piece :: rest => piece +:+ String sep (join_char sep rest)
  end.

(** The number of occurrences of a character. *)
Fixpoint count_char (c : ascii) (s : string) : nat :=
  match s with
  | EmptyString => O
  | String d s' => (if Ascii.eqb d c then 1 else 0) + count_char c s'
  end.

(** ** Further observations of a run *)

(** The pages requested, in order. *)
Definition fetched (t : list event) : list string :=
  flat_map (fun ev => match ev with HttpGet url => [url] | _ => [] end) t.

(** The completion requests, in order. *)
Definition completions (t : list event) : list string :=
  flat_map (fun ev => match ev with ChatCompletion url => [url] | _ => [] end) t.

(** [k] slashes. *)
Fixpoint slashes (k : nat) : string :=
  match k with
  | O => EmptyString
  | S k' => String "/" (slashes k')
  end.

(** The string consists of slashes only (the empty string does). *)
Definition only_slashes (s : string) : bool :=
  forallb (Ascii.eqb "/"%char) (list_ascii_of_string s).

(** [fs.existsSync] on a state, as [createDirectories] asks it. *)
Definition exists_in (st : State) (path : string) : bool :=
  bool_decide (path ∈ dirs st) || bool_decide (is_Some (files st !! path)).

Definition output_dirs (env : Env) : list string :=
  [raw_dir (DIRS env); clean_dir (DIRS env); reports_dir (DIRS env)].

(** The files named by the success entries of the report are there. *)
Definition entry_files_present (files_now : gmap string file_data) (d : Detail) : Prop :=
  match d with
  | Success _ _ _ _ _ p =>
      is_Some (files_now !! raw_path p) /\ is_Some (files_now !! clean_path p)
  | Failure _ _ _ => True
  end.

Definition is_failure (d : Detail) : bool := negb (is_success d).

(** A site whose pages differ: the page is the URL itself. *)
Definition sample_per_url : Env :=
  Sample.make (Some "sk-test") (fun _ url => inr url) (fun html => inr ("raw:" +:+ html))
              (fun _ markdown _ => inr (JString ("clean:" +:+ markdown))) Sample.no_error
              (LinksArray ["https://a.test/x"; "https://a.test/x/"]).

(** Two extractions one after the other on that site. *)
Definition sample_first : outcome ExtractionResult * State :=
  extractToMarkdown sample_per_url "https://a.test/x" Sample.empty_state.

Definition sample_second : outcome ExtractionResult * State :=
  extractToMarkdown sample_per_url "https://a.test/x/" (snd sample_first).

Definition sample_first_result : ExtractionResult :=
  {| clean := "clean:raw:https://a.test/x";
     raw := "raw:https://a.test/x";
     paths := {| raw_path := "/app/output/raw/a.test_x.md";
                 clean_path := "/app/output/clean/a.test_x.md" |};
     fileName := "a.test_x" |}.

Definition sample_second_result : ExtractionResult :=
  {| clean := "clean:raw:https://a.test/x/";
     raw := "raw:https://a.test/x/";
     paths := {| raw_path := "/app/output/raw/a.test_x.md";
                 clean_path := "/app/output/clean/a.test_x.md" |};
     fileName := "a.test_x" |}.

(** The completion request of one extraction, if it comes to it. *)
Definition completion_made (env : Env) (url : string) (st : State) : list string :=
  match axios_get env (trace st) url with
  | inr html =>
      match turndown env html with
      | inr _ => [url]
      | inl _ => []
      end
  | inl _ => []
  end.

(** The report of the sample run on three links. *)
Definition sample_mixed_report : Report :=
  match report (snd (main Sample.mixed ∅ ∅)) with
  | Some r => r
  | None => new_report Sample.mixed "" []
  end.

(** Files are only added or replaced, never removed. *)
Definition files_kept (st st' : State) : Prop :=
  forall p, is_Some (files st !! p) -> is_Some (files st' !! p).

(** The files of every success entry of the current report are there. *)
Definition entries_present (st : State) : Prop :=
  forall r, report st = Some r -> Forall (entry_files_present (files st)) (details r).

(** The clean directory cannot be created; the raw directory is there. *)
Definition sample_mkdir_fails : Env :=
  {| OPENAI_API_KEY := Some "sk-test";
     dirname := "/app";
     URL_new := WHATWG.parse;
     axios_get := Sample.fetch_ok;
     turndown := Sample.convert_ok;
     axios_post := Sample.clean_ok;
     mkdir_error := fun _ d => if String.eqb d "/app/output/clean"
                               then Some Sample.denied else None;
     write_error := Sample.no_error;
     linksExtractor_json := Sample.one_link;
     toISOString := fun _ => "2025-07-05T14:44:24.939Z";
     Number_toString := fun _ => "1e+21" |}.

Definition sample_raw_dir_only : State :=
  {| files := ∅; dirs := {[ "/app/output/raw" ]}; trace := []; report := None |}.

(** * Properties *)

(** ** Frame reasoning: observations a computation leaves unchanged *)

Section Frame.
Context {X : Type} (obs : State -> X).

Lemma keeps_ret {A} (a : A) : keeps obs (ret a).
Proof. intros st; reflexivity. Qed.

Lemma keeps_throw {A} (e : Error) : keeps obs (@throw A e).
Proof. intros st; reflexivity. Qed.

Lemma keeps_exit {A} (c : Z) : keeps obs (@process_exit A c).
Proof. intros st; reflexivity. Qed.

Lemma keeps_lift {A} (r : Error + A) : keeps obs (lift r).
Proof. destruct r; intros st; reflexivity. Qed.

Lemma keeps_bind {A B} (m : M A) (k : A -> M B) :
  keeps obs m -> (forall a, keeps obs (k a)) -> keeps obs (bind m k).
Proof.
  intros Hm Hk st. unfold bind. specialize (Hm st).
  destruct (m st) as [[a | e | c] st1]; simpl in *; try assumption.
  rewrite (Hk a st1). assumption.
Qed.

Lemma keeps_try_catch {A} (m : M A) (h : Error -> M A) :
  keeps obs m -> (forall e, keeps obs (h e)) -> keeps obs (try_catch m h).
Proof.
  intros Hm Hh st. unfold try_catch. specialize (Hm st).
  destruct (m st) as [[a | e | c] st1]; simpl in *; try assumption.
  rewrite (Hh e st1). assumption.
Qed.

Lemma keeps_get_trace : keeps obs get_trace.
Proof. intros st; reflexivity. Qed.

Lemma keeps_existsSync path : keeps obs (existsSync path).
Proof. intros st; reflexivity. Qed.

End Frame.

Create HintDb frame.
#[export] Hint Resolve keeps_ret keeps_throw keeps_exit keeps_lift keeps_get_trace
  keeps_existsSync : frame.

(** ** Computations that do not call process.exit *)

Lemma no_exit_ret {A} (a : A) : no_exit (ret a).
Proof. intros st c; discriminate. Qed.

Lemma no_exit_throw {A} (e : Error) : no_exit (@throw A e).
Proof. intros st c; discriminate. Qed.

Lemma no_exit_lift {A} (r : Error + A) : no_exit (lift r).
Proof. destruct r; intros st c; discriminate. Qed.

Lemma no_exit_bind {A B} (m : M A) (k : A -> M B) :
  no_exit m -> (forall a, no_exit (k a)) -> no_exit (bind m k).
Proof.
  intros Hm Hk st c. unfold bind. specialize (Hm st).
  destruct (m st) as [[a | e | c'] st1]; simpl in *.
  - apply Hk.
  - discriminate.
  - exfalso. exact (Hm c' eq_refl).
Qed.

Lemma no_exit_try_catch {A} (m : M A) (h : Error -> M A) :
  no_exit m -> (forall e, no_exit (h e)) -> no_exit (try_catch m h).
Proof.
  intros Hm Hh st c. unfold try_catch. specialize (Hm st).
  destruct (m st) as [[a | e | c'] st1]; simpl in *.
  - discriminate.
  - apply Hh.
  - exfalso. exact (Hm c' eq_refl).
Qed.

Lemma no_exit_state {A} (f : State -> State) (a : A) : no_exit (fun st => (Ret a, f st)).
Proof. intros st c; discriminate. Qed.

Lemma no_exit_emit ev : no_exit (emit ev).
Proof. intros st c; discriminate. Qed.

Lemma no_exit_get_trace : no_exit get_trace.
Proof. intros st c; discriminate. Qed.

Create HintDb noexit.
#[export] Hint Resolve no_exit_ret no_exit_throw no_exit_lift no_exit_emit
  no_exit_get_trace no_exit_state : noexit.

(** ** extractToMarkdown, case by case *)

Lemma extractToMarkdown_cases env url st :
  extractToMarkdown env url st = extraction_cases env url st.
Proof.
  unfold extractToMarkdown, extraction_cases, clean_write, try_catch, http_get,
    turndown_call, organizeMarkdown, now, writeFileSync_value, writeFileSync,
    try_catch, bind, get_trace, emit, lift, throw, ret, add_events, set_files,
    stage_events.
  simpl.
  destruct (axios_get env (trace st) url) as [e | html]; simpl; [reflexivity |].
  destruct (turndown env html) as [e | rawMarkdown]; simpl.
  { rewrite <- ?app_assoc. reflexivity. }
  rewrite <- ?app_assoc. simpl.
  destruct (axios_post env _ rawMarkdown url) as [e | content]; simpl.
  { rewrite <- ?app_assoc. reflexivity. }
  destruct (generateFileName env url) as [e | name]; simpl.
  { rewrite <- ?app_assoc. reflexivity. }
  rewrite <- ?app_assoc. simpl.
  destruct (write_error env _ (rawPath env name)) as [e |]; simpl.
  { rewrite <- ?app_assoc. reflexivity. }
  rewrite <- ?app_assoc. simpl.
  destruct (string_data content) as [e | cleanMarkdown]; simpl.
  { rewrite <- ?app_assoc. reflexivity. }
  rewrite <- ?app_assoc. simpl.
  destruct (write_error env _ (cleanPath env name)) as [e |]; simpl;
    rewrite <- ?app_assoc; reflexivity.
Qed.

Lemma extraction_cases_report env url st :
  report (snd (extraction_cases env url st)) = report st.
Proof.
  unfold extraction_cases.
  repeat (match goal with |- context [match ?x with _ => _ end] => destruct x end);
    reflexivity.
Qed.

Lemma extraction_cases_dirs env url st :
  dirs (snd (extraction_cases env url st)) = dirs st.
Proof.
  unfold extraction_cases.
  repeat (match goal with |- context [match ?x with _ => _ end] => destruct x end);
    reflexivity.
Qed.

Lemma extraction_cases_no_exit env url st c :
  fst (extraction_cases env url st) <> Exit c.
Proof.
  unfold extraction_cases.
  repeat (match goal with |- context [match ?x with _ => _ end] => destruct x end);
    discriminate.
Qed.

Lemma delays_app t1 t2 : delays (t1 ++ t2) = (delays t1 + delays t2)%nat.
Proof. unfold delays. rewrite List.filter_app, length_app. reflexivity. Qed.

Lemma extraction_cases_delays env url st :
  delays (trace (snd (extraction_cases env url st))) = delays (trace st).
Proof.
  unfold extraction_cases.
  repeat (match goal with |- context [match ?x with _ => _ end] => destruct x end);
    cbn [snd trace add_events set_files]; rewrite delays_app;
    change (delays (trace st) + 0 = delays (trace st))%nat; lia.
Qed.

(** ** The loop body, case by case *)

Lemma loop_body_cases env url r st :
  report st = Some r ->
  loop_body env url st = loop_cases env url r st.
Proof.
  intros Hr. unfold loop_body, loop_cases, try_catch at 1, bind at 1.
  rewrite extractToMarkdown_cases.
  pose proof (extraction_cases_report env url st) as Hrep.
  destruct (extraction_cases env url st) as [[result | error | c] st1]; simpl in Hrep.
  - unfold update_report, the_report, sleep, emit, bind, ret, set_report, add_events.
    simpl. rewrite Hrep, Hr. simpl. reflexivity.
  - unfold update_report, the_report, now, get_trace, emit, bind, ret, set_report,
      add_events.
    simpl. rewrite Hrep, Hr. simpl. reflexivity.
  - reflexivity.
Qed.

(** ** The loop invariant *)

Lemma loop_cases_post env url r st :
  report st = Some r ->
  exists st' r', loop_cases env url r st = (Ret tt, st') /\ loop_post env [url] st r st' r'.
Proof.
  intros Hr. unfold loop_cases.
  pose proof (extraction_cases_dirs env url st) as Hd.
  pose proof (extraction_cases_delays env url st) as Hs.
  pose proof (extraction_cases_no_exit env url st) as Hx.
  destruct (extraction_cases env url st) as [[result | error | c] st1]; simpl in *.
  - eexists _, _. split; [reflexivity |].
    constructor; [reflexivity | idtac ..];
      unfold push_detail, incr_successes; cbn;
      try reflexivity; try lia; try assumption.
    + eexists [_]. repeat split; try reflexivity; simpl; [| lia].
      constructor; [reflexivity | constructor].
    + rewrite delays_app, Hs.
      change (delays [SetTimeout 1000]) with 1%nat. lia.
  - eexists _, _. split; [reflexivity |].
    constructor; [reflexivity | idtac ..];
      unfold push_detail, incr_errors; cbn;
      try reflexivity; try lia; try assumption.
    + eexists [_]. repeat split; try reflexivity; simpl; [| lia].
      constructor; [exact I | constructor].
    + rewrite delays_app, Hs.
      change (delays [DateNow]) with 0%nat. lia.
  - exfalso. exact (Hx c eq_refl).
Qed.

Lemma loop_post_trans env us1 us2 st r st1 r1 st2 r2 :
  loop_post env us1 st r st1 r1 ->
  loop_post env us2 st1 r1 st2 r2 ->
  loop_post env (us1 ++ us2)%list st r st2 r2.
Proof.
  intros [H1 H2 H3 H4 H5 H6 H7 (ds1 & Hd1 & Hu1 & Hc1 & Hn1) H8 H9]
         [K1 K2 K3 K4 K5 K6 K7 (ds2 & Hd2 & Hu2 & Hc2 & Hn2) K8 K9].
  constructor; try congruence; try lia.
  - rewrite length_app. lia.
  - exists (ds1 ++ ds2)%list. repeat split.
    + rewrite Hd2, Hd1. symmetry. apply app_assoc.
    + rewrite List.map_app. congruence.
    + apply Forall_app. split; assumption.
    + rewrite List.filter_app, length_app. lia.
Qed.

Lemma loop_post_nil env st r : report st = Some r -> loop_post env [] st r st r.
Proof.
  intros Hr. constructor; simpl; try reflexivity; try lia; try assumption.
  exists (@nil Detail). repeat split; simpl; try lia.
  - symmetry. apply app_nil_r.
  - constructor.
Qed.

Lemma for_of_loop_body env urls :
  forall st r, report st = Some r ->
  exists st' r',
    for_of urls (loop_body env) st = (Ret tt, st') /\ loop_post env urls st r st' r'.
Proof.
  induction urls as [| url urls IH]; intros st r Hr.
  - exists st, r. split; [reflexivity | apply loop_post_nil; assumption].
  - destruct (loop_cases_post env url r st Hr) as (st1 & r1 & E1 & P1).
    destruct (IH st1 r1 (post_report _ _ _ _ _ _ P1)) as (st2 & r2 & E2 & P2).
    exists st2, r2. split.
    + simpl. unfold bind. rewrite (loop_body_cases env url r st Hr), E1. exact E2.
    + exact (loop_post_trans env [url] urls _ _ _ _ _ _ P1 P2).
Qed.

(** ** The phases of processLinks *)

(** Follow the structure of a computation to prove [keeps] or [no_exit]. *)
Ltac frame_step :=
  first
    [ solve [ auto with frame noexit ]
    | solve [ intros ?; reflexivity ]
    | solve [ intros ? ?; discriminate ]
    | apply keeps_bind; [| intros ? ]
    | apply keeps_try_catch; [| intros ? ]
    | apply no_exit_bind; [| intros ? ]
    | apply no_exit_try_catch; [| intros ? ] ].

Ltac frame := repeat frame_step.

Lemma mkdirSync_keeps_report env dir : keeps report (mkdirSync env dir).
Proof. unfold mkdirSync. frame. destruct (mkdir_error env a dir); frame. Qed.

Lemma mkdirSync_keeps_files env dir : keeps files (mkdirSync env dir).
Proof. unfold mkdirSync. frame. destruct (mkdir_error env a dir); frame. Qed.

Lemma mkdirSync_no_exit env dir : no_exit (mkdirSync env dir).
Proof. unfold mkdirSync. frame. destruct (mkdir_error env a dir); frame. Qed.

#[export] Hint Resolve mkdirSync_keeps_report mkdirSync_keeps_files : frame.
#[export] Hint Resolve mkdirSync_no_exit : noexit.

Lemma ensure_dir_keeps_report env dir : keeps report (ensure_dir env dir).
Proof. unfold ensure_dir. frame. destruct a; frame. Qed.

Lemma ensure_dir_keeps_files env dir : keeps files (ensure_dir env dir).
Proof. unfold ensure_dir. frame. destruct a; frame. Qed.

Lemma ensure_dir_no_exit env dir : no_exit (ensure_dir env dir).
Proof. unfold ensure_dir. frame. destruct a; frame. Qed.

#[export] Hint Resolve ensure_dir_keeps_report ensure_dir_keeps_files : frame.
#[export] Hint Resolve ensure_dir_no_exit : noexit.

Lemma createDirectories_keeps_report env : keeps report (createDirectories env).
Proof. unfold createDirectories. frame. Qed.

Lemma createDirectories_keeps_files env : keeps files (createDirectories env).
Proof. unfold createDirectories. frame. Qed.


Lemma emits_silent (P : event -> Prop) {A} (m : M A) :
  keeps trace m -> emits P m.
Proof.
  intros Hk st. exists []. split; [| constructor].
  rewrite app_nil_r. apply Hk.
Qed.

Lemma emits_emit (P : event -> Prop) ev : P ev -> emits P (emit ev).
Proof. intros Hp st. exists [ev]. split; [reflexivity | repeat constructor; exact Hp]. Qed.

Lemma emits_bind (P : event -> Prop) {A B} (m : M A) (k : A -> M B) :
  emits P m -> (forall a, emits P (k a)) -> emits P (bind m k).
Proof.
  intros Hm Hk st. unfold bind. destruct (Hm st) as (evs1 & E1 & F1).
  destruct (m st) as [[a | e | c] st1]; simpl in *; try (exists evs1; split; assumption).
  destruct (Hk a st1) as (evs2 & E2 & F2).
  exists (evs1 ++ evs2)%list. split.
  - rewrite E2, E1. symmetry. apply app_assoc.
  - apply Forall_app. split; assumption.
Qed.

Lemma mkdirSync_emits env dir : emits is_mkdir (mkdirSync env dir).
Proof.
  unfold mkdirSync. apply emits_bind; [apply emits_silent; frame | intros h].
  apply emits_bind; [apply emits_emit; eexists; reflexivity | intros _].
  apply emits_silent. destruct (mkdir_error env h dir); frame.
Qed.

Lemma ensure_dir_emits env dir : emits is_mkdir (ensure_dir env dir).
Proof.
  unfold ensure_dir. apply emits_bind; [apply emits_silent; frame | intros ex].
  destruct ex; [apply emits_silent; frame | apply mkdirSync_emits].
Qed.

Lemma createDirectories_emits env : emits is_mkdir (createDirectories env).
Proof.
  unfold createDirectories.
  repeat (apply emits_bind; [apply ensure_dir_emits | intros _]).
  apply ensure_dir_emits.
Qed.

Lemma usable_array urls : urls <> [] -> usable (LinksArray urls) = Some urls.
Proof. destruct urls; [congruence | reflexivity]. Qed.

Lemma load_links_cases env st :
  load_links env st =
  match usable (linksExtractor_json env) with
  | Some urls => (Ret urls, add_events [ReadFileSync (linksPath env)] st)
  | None => (Exit 1, add_events [ReadFileSync (linksPath env)] st)
  end.
Proof.
  unfold load_links, try_catch, bind, emit, throw, ret, process_exit, add_events.
  simpl. destruct (linksExtractor_json env) as [e | e | | [| u us]]; reflexivity.
Qed.

Lemma run_links_post env urls st :
  let r0 := new_report env (toISOString env (trace st)) urls in
  let st0 := set_report (Some r0) (add_events [DateNow] st) in
  exists st' r',
    run_links env urls st = (Ret tt, st') /\ loop_post env urls st0 r0 st' r'.
Proof.
  intros r0 st0.
  destruct (for_of_loop_body env urls st0 r0 eq_refl) as (st' & r' & E & P).
  exists st', r'. split; [| exact P].
  unfold run_links, now, bind, get_trace, emit, ret. simpl. exact E.
Qed.

Lemma save_report_cases env r st :
  report st = Some r -> save_report env st = save_cases env r st.
Proof.
  intros Hr.
  unfold save_report, save_cases, reportPath, now, the_report, writeFileSync, bind,
    get_trace, emit, throw, ret, add_events, set_files.
  simpl. rewrite Hr. simpl.
  destruct (write_error env _ _) as [e |]; simpl.
  { rewrite <- ?app_assoc. reflexivity. }
  rewrite ?Hr. simpl. rewrite <- ?app_assoc. simpl.
  destruct (write_error env _ _) as [e |]; simpl; rewrite <- ?app_assoc; reflexivity.
Qed.

Lemma save_cases_report env r st : report (snd (save_cases env r st)) = report st.
Proof.
  unfold save_cases.
  repeat (match goal with |- context [match ?x with _ => _ end] => destruct x end);
    reflexivity.
Qed.

Lemma save_cases_delays env r st :
  delays (trace (snd (save_cases env r st))) = delays (trace st).
Proof.
  unfold save_cases.
  repeat (match goal with |- context [match ?x with _ => _ end] => destruct x end);
    cbn [snd trace add_events set_files]; rewrite delays_app;
    change (delays (trace st) + 0 = delays (trace st))%nat; lia.
Qed.

(** ** The whole process, phase by phase *)

Lemma main_eq_cases env fs ds : main env fs ds = main_cases env fs ds.
Proof.
  unfold main, main_cases, processLinks, process_exit.
  destruct (falsy (OPENAI_API_KEY env)); [reflexivity |].
  unfold bind at 1.
  destruct (createDirectories env (init_state fs ds)) as [[[] | e | c] st1];
    try reflexivity.
  unfold bind at 1. rewrite load_links_cases.
  destruct (usable (linksExtractor_json env)) as [urls |]; reflexivity.
Qed.

Lemma main_run env fs ds urls st1 :
  falsy (OPENAI_API_KEY env) = false ->
  usable (linksExtractor_json env) = Some urls ->
  createDirectories env (init_state fs ds) = (Ret tt, st1) ->
  exists st3 r,
    loop_post env urls (fst (loop_start env urls st1)) (snd (loop_start env urls st1)) st3 r /\
    main env fs ds = save_cases env r st3.
Proof.
  intros Hkey Hlinks Hdirs.
  rewrite main_eq_cases. unfold main_cases. rewrite Hkey, Hdirs, Hlinks.
  destruct (run_links_post env urls (add_events [ReadFileSync (linksPath env)] st1))
    as (st3 & r & E & P).
  exists st3, r. split; [exact P |].
  rewrite E. apply save_report_cases. exact (post_report _ _ _ _ _ _ P).
Qed.

(** A report exists at the end only if the loop was reached. *)
Lemma main_report_inv env fs ds r :
  report (snd (main env fs ds)) = Some r ->
  exists urls st1 st3,
    falsy (OPENAI_API_KEY env) = false /\
    usable (linksExtractor_json env) = Some urls /\
    createDirectories env (init_state fs ds) = (Ret tt, st1) /\
    loop_post env urls (fst (loop_start env urls st1)) (snd (loop_start env urls st1)) st3 r /\
    main env fs ds = save_cases env r st3.
Proof.
  intros Hr.
  destruct (falsy (OPENAI_API_KEY env)) eqn:Hkey.
  { rewrite main_eq_cases in Hr. unfold main_cases in Hr. rewrite Hkey in Hr.
    discriminate. }
  pose proof (createDirectories_keeps_report env (init_state fs ds)) as Hk.
  destruct (createDirectories env (init_state fs ds)) as [[[] | e | c] st1] eqn:Hdirs;
    simpl in Hk.
  - destruct (usable (linksExtractor_json env)) as [urls |] eqn:Hlinks.
    + destruct (main_run env fs ds urls st1 Hkey Hlinks Hdirs) as (st3 & r' & P & E).
      assert (r' = r) as ->.
      { rewrite E, save_cases_report, (post_report _ _ _ _ _ _ P) in Hr. congruence. }
      exists urls, st1, st3. auto.
    + rewrite main_eq_cases in Hr. unfold main_cases in Hr.
      rewrite Hkey, Hdirs, Hlinks in Hr. simpl in Hr. congruence.
  - rewrite main_eq_cases in Hr. unfold main_cases in Hr. rewrite Hkey, Hdirs in Hr.
    simpl in Hr. congruence.
  - rewrite main_eq_cases in Hr. unfold main_cases in Hr. rewrite Hkey, Hdirs in Hr.
    simpl in Hr. congruence.
Qed.

(** A report exists at the end of every run that gets past the start-up
    checks and the creation of the output directories. *)
Lemma main_report_exists env fs ds urls :
  usable (linksExtractor_json env) = Some urls ->
  falsy (OPENAI_API_KEY env) = false ->
  fst (createDirectories env (init_state fs ds)) = Ret tt ->
  is_Some (report (snd (main env fs ds))).
Proof.
  intros Hlinks Hkey Hdirs.
  destruct (createDirectories env (init_state fs ds)) as [o st1] eqn:E.
  simpl in Hdirs. subst o.
  destruct (main_run env fs ds urls st1 Hkey Hlinks E) as (st3 & r & P & Em).
  exists r. rewrite Em, save_cases_report. exact (post_report _ _ _ _ _ _ P).
Qed.

Lemma usable_inj l urls urls' :
  usable l = Some urls -> usable l = Some urls' -> urls = urls'.
Proof. congruence. Qed.

(** What the final report says about the list it was run on. *)
Lemma main_report_post env fs ds urls r :
  usable (linksExtractor_json env) = Some urls ->
  report (snd (main env fs ds)) = Some r ->
  total r = Z.of_nat (length urls) /\
  (successes r + errors r = total r)%Z /\
  List.map detail_url (details r) = urls /\
  Forall (detail_consistent env) (details r) /\
  Z.of_nat (length (List.filter is_success (details r))) = successes r /\
  directories r = DIRS env.
Proof.
  intros Hlinks Hr.
  destruct (main_report_inv env fs ds r Hr)
    as (urls' & st1 & st3 & Hkey & Hlinks' & Hdirs & P & Em).
  assert (urls' = urls) as -> by (eapply usable_inj; eassumption).
  destruct P as [_ _ Ht Hd _ _ Hc (dl & Hdl & Hu & Hf & Hn) _ _].
  simpl in *. rewrite Hdl. simpl.
  repeat split; try assumption; try lia.
Qed.

(** C4: for a non-empty URL list, the report at the end of the run has
    [total] equal to the length of the list and [successes + errors] equal
    to [total]; and the run has such a report as soon as the credential is
    present and the output directories could be created. *)
Theorem report_totals env fs ds urls :
  linksExtractor_json env = LinksArray urls ->
  urls <> [] ->
  (forall r, report (snd (main env fs ds)) = Some r ->
             total r = Z.of_nat (length urls) /\
             (successes r + errors r = total r)%Z) /\
  (falsy (OPENAI_API_KEY env) = false ->
   fst (createDirectories env (init_state fs ds)) = Ret tt ->
   is_Some (report (snd (main env fs ds)))).
Proof.
  intros Hl Hne.
  assert (usable (linksExtractor_json env) = Some urls) as Hu
    by (rewrite Hl; apply usable_array; exact Hne).
  split.
  - intros r Hr.
    destruct (main_report_post env fs ds urls r Hu Hr) as (Ht & Hc & _).
    split; assumption.
  - apply main_report_exists with urls. exact Hu.
Qed.

(** C5: for a non-empty URL list, the details of the report at the end of
    the run are one entry per input URL, in input order: entry [i] carries
    the URL at index [i] of the list. *)
Theorem details_follow_input env fs ds urls :
  linksExtractor_json env = LinksArray urls ->
  urls <> [] ->
  (forall r, report (snd (main env fs ds)) = Some r ->
             length (details r) = length urls /\
             forall i, option_map detail_url (nth_error (details r) i) = nth_error urls i) /\
  (falsy (OPENAI_API_KEY env) = false ->
   fst (createDirectories env (init_state fs ds)) = Ret tt ->
   is_Some (report (snd (main env fs ds)))).
Proof.
  intros Hl Hne.
  assert (usable (linksExtractor_json env) = Some urls) as Hu
    by (rewrite Hl; apply usable_array; exact Hne).
  split.
  - intros r Hr.
    destruct (main_report_post env fs ds urls r Hu Hr) as (_ & _ & Hm & _).
    split.
    + rewrite <- Hm. symmetry. apply length_map.
    + intros i. rewrite <- Hm. symmetry. apply nth_error_map.
  - apply main_report_exists with urls. exact Hu.
Qed.

Lemma report_totals_witness :
  linksExtractor_json Sample.mixed = LinksArray Sample.three_links /\
  Sample.three_links <> [] /\
  ((forall r, report (snd (main Sample.mixed ∅ ∅)) = Some r ->
              total r = Z.of_nat (length Sample.three_links) /\
              (successes r + errors r = total r)%Z) /\
   (falsy (OPENAI_API_KEY Sample.mixed) = false ->
    fst (createDirectories Sample.mixed (init_state ∅ ∅)) = Ret tt ->
    is_Some (report (snd (main Sample.mixed ∅ ∅))))).
Proof.
  split; [reflexivity |]. split; [discriminate |].
  apply (report_totals Sample.mixed ∅ ∅ Sample.three_links); [reflexivity | discriminate].
Defined.

Lemma details_follow_input_witness :
  linksExtractor_json Sample.mixed = LinksArray Sample.three_links /\
  Sample.three_links <> [] /\
  ((forall r, report (snd (main Sample.mixed ∅ ∅)) = Some r ->
              length (details r) = length Sample.three_links /\
              forall i, option_map detail_url (nth_error (details r) i)
                        = nth_error Sample.three_links i) /\
   (falsy (OPENAI_API_KEY Sample.mixed) = false ->
    fst (createDirectories Sample.mixed (init_state ∅ ∅)) = Ret tt ->
    is_Some (report (snd (main Sample.mixed ∅ ∅))))).
Proof.
  split; [reflexivity |]. split; [discriminate |].
  apply (details_follow_input Sample.mixed ∅ ∅ Sample.three_links);
    [reflexivity | discriminate].
Defined.

(** ** Delays *)

Lemma delays_mkdir evs : Forall is_mkdir evs -> delays evs = 0%nat.
Proof.
  induction 1 as [| ev evs [d ->] _ IH]; [reflexivity |].
  change (delays (MkdirSync d :: evs)) with (delays evs). exact IH.
Qed.

(** The code delays once per successful URL: at the end of a run, the
    number of one-second delays equals the [successes] counter. *)
Lemma delays_equal_successes env fs ds r :
  report (snd (main env fs ds)) = Some r ->
  Z.of_nat (delays (trace (snd (main env fs ds)))) = successes r.
Proof.
  intros Hr.
  destruct (main_report_inv env fs ds r Hr)
    as (urls & st1 & st3 & Hkey & Hlinks & Hdirs & P & Em).
  rewrite Em, save_cases_delays, (post_delays _ _ _ _ _ _ P).
  destruct (createDirectories_emits env (init_state fs ds)) as (evs & Et & Fm).
  rewrite Hdirs in Et. simpl in Et.
  unfold loop_start. cbn [fst snd trace set_report add_events successes new_report].
  rewrite Et, !delays_app, (delays_mkdir evs Fm).
  change (delays [ReadFileSync (linksPath env)]) with 0%nat.
  change (delays [DateNow]) with 0%nat. lia.
Qed.

(** C1 (the code departs from the claim): on two URLs, the first of which
    fails in the remote-clean call, the run makes one delay, not two: the
    failure is recorded and the second page is fetched and sent to the
    completion service with no delay in between; the only delay follows
    the successful second URL. *)
Theorem failed_url_has_no_delay :
  linksExtractor_json Sample.rate_limited = LinksArray Sample.two_links /\
  fst (main Sample.rate_limited ∅ ∅) = Ret tt /\
  trace (snd (main Sample.rate_limited ∅ ∅)) =
  [MkdirSync "/app/output/raw"; MkdirSync "/app/output/clean";
   MkdirSync "/app/output/reports"; ReadFileSync "/app/linksExtractor.json"; DateNow;
   HttpGet "https://a.test/x"; Turndown; ChatCompletion "https://a.test/x"; DateNow;
   HttpGet "https://example.com/docs/page"; Turndown;
   ChatCompletion "https://example.com/docs/page"; DateNow;
   WriteFileSync "/app/output/raw/example.com_docs_page.md";
   WriteFileSync "/app/output/clean/example.com_docs_page.md";
   SetTimeout 1000; DateNow;
   WriteFileSync "/app/output/reports/report_2025-07-05T14-44-24-939Z.json";
   WriteFileSync "/app/output/reports/report_latest.json"] /\
  delays (trace (snd (main Sample.rate_limited ∅ ∅))) = 1%nat /\
  length Sample.two_links = 2%nat /\
  (exists r, report (snd (main Sample.rate_limited ∅ ∅)) = Some r /\
             total r = 2%Z /\ successes r = 1%Z /\ errors r = 1%Z).
Proof.
  split; [reflexivity |]. split; [vm_compute; reflexivity |].
  split; [vm_compute; reflexivity |]. split; [vm_compute; reflexivity |].
  split; [reflexivity |].
  eexists. split; [vm_compute; reflexivity |].
  repeat split; reflexivity.
Qed.

(** ** One URL's pipeline: what a failure leaves behind *)




(** ** Paths under the three output directories are distinct *)

Lemma append_assoc (a b c : string) : (a +:+ b) +:+ c = a +:+ (b +:+ c).
Proof.
  induction a as [| x a IH]; [reflexivity |].
  change (String x ((a +:+ b) +:+ c) = String x (a +:+ (b +:+ c))).
  f_equal. exact IH.
Qed.

Lemma append_cancel (s a b : string) : s +:+ a = s +:+ b -> a = b.
Proof.
  induction s as [| x s IH]; intros H; [exact H |].
  change (String x (s +:+ a) = String x (s +:+ b)) in H.
  injection H. exact IH.
Qed.

Lemma rawPath_not_reports env name f :
  rawPath env name <> path_join (reports_dir (DIRS env)) f.
Proof.
  unfold rawPath, DIRS, path_join; cbn [raw_dir reports_dir].
  rewrite !append_assoc. intros H.
  apply append_cancel in H. cbv in H. discriminate H.
Qed.

Lemma cleanPath_not_reports env name f :
  cleanPath env name <> path_join (reports_dir (DIRS env)) f.
Proof.
  unfold cleanPath, DIRS, path_join; cbn [clean_dir reports_dir].
  rewrite !append_assoc. intros H.
  apply append_cancel in H. cbv in H. discriminate H.
Qed.

(** ** The run on one URL whose remote-clean call fails *)

Lemma save_cases_writes env r st :
  exists evs,
    trace (snd (save_cases env r st)) = (trace st ++ evs)%list /\
    Forall (under_reports env) evs /\
    forall p, (forall f, p <> path_join (reports_dir (DIRS env)) f) ->
              files (snd (save_cases env r st)) !! p = files st !! p.
Proof.
  unfold save_cases.
  assert (forall ts, under_reports env (WriteFileSync (reportPath env ts))) as Hrp
    by (intros ts; eexists; reflexivity).
  assert (under_reports env (WriteFileSync (reportLatestPath env))) as Hlp
    by (eexists; reflexivity).
  destruct (write_error env _ _) as [e |]; [| destruct (write_error env _ _) as [e |]];
    cbn [snd trace files add_events set_files];
    eexists; (split; [reflexivity |]); (split; [repeat constructor; auto |]);
    intros p Hp; rewrite ?lookup_insert_ne; try reflexivity;
    intros E; eapply Hp; symmetry; exact E.
Qed.

Lemma mkdir_under_reports env evs : Forall is_mkdir evs -> Forall (under_reports env) evs.
Proof.
  intros H. eapply Forall_impl; [exact H |]. intros ev [d ->]. exact I.
Qed.

Lemma under_reports_not_raw env t name :
  Forall (under_reports env) t -> WriteFileSync (rawPath env name) ∉ t.
Proof.
  intros Hf Hin. rewrite Forall_forall in Hf.
  destruct (Hf _ Hin) as [f Hp]. exact (rawPath_not_reports env name f Hp).
Qed.

Lemma under_reports_not_clean env t name :
  Forall (under_reports env) t -> WriteFileSync (cleanPath env name) ∉ t.
Proof.
  intros Hf Hin. rewrite Forall_forall in Hf.
  destruct (Hf _ Hin) as [f Hp]. exact (cleanPath_not_reports env name f Hp).
Qed.

Lemma loop_body_clean_failure env u html md err st r :
  report st = Some r ->
  (forall h, axios_get env h u = inr html) ->
  turndown env html = inr md ->
  (forall h, axios_post env h md u = inl err) ->
  exists ts,
    loop_body env u st =
    (Ret tt,
     set_report (Some (push_detail (Failure u (message err) ts) (incr_errors r)))
                (add_events [DateNow]
                   (add_events [HttpGet u; Turndown; ChatCompletion u] st))).
Proof.
  intros Hr Hget Htd Hpost. eexists.
  rewrite (loop_body_cases env u r st Hr).
  unfold loop_cases, extraction_cases. rewrite Hget, Htd, Hpost. reflexivity.
Qed.

Lemma main_clean_failure env fs ds u html md err :
  falsy (OPENAI_API_KEY env) = false ->
  fst (createDirectories env (init_state fs ds)) = Ret tt ->
  linksExtractor_json env = LinksArray [u] ->
  (forall h, axios_get env h u = inr html) ->
  turndown env html = inr md ->
  (forall h, axios_post env h md u = inl err) ->
  exists st3 r ts0 ts,
    main env fs ds = save_cases env r st3 /\
    report st3 = Some r /\
    r = {| timestamp := ts0; total := 1; successes := 0; errors := 1;
           directories := DIRS env; details := [Failure u (message err) ts] |} /\
    files st3 = fs /\
    Forall (under_reports env) (trace st3).
Proof.
  intros Hkey Hdirs Hlinks Hget Htd Hpost.
  pose proof (createDirectories_keeps_files env (init_state fs ds)) as Hfs.
  pose proof (createDirectories_keeps_report env (init_state fs ds)) as Hrep.
  destruct (createDirectories_emits env (init_state fs ds)) as (evs & Et & Fm).
  destruct (createDirectories env (init_state fs ds)) as [o st1] eqn:E.
  simpl in *. subst o.
  set (st2 := add_events [ReadFileSync (linksPath env)] st1).
  set (r0 := new_report env (toISOString env (trace st2)) [u]).
  set (st0 := set_report (Some r0) (add_events [DateNow] st2)).
  destruct (loop_body_clean_failure env u html md err st0 r0 eq_refl Hget Htd Hpost)
    as (ts & Hloop).
  eexists _, _, _, ts.
  split.
  { rewrite main_eq_cases. unfold main_cases. rewrite Hkey, E, Hlinks. cbn [usable].
    fold st2. unfold run_links, now, get_trace, emit, ret.
    unfold bind at 1 2 3 4. cbn [for_of]. unfold bind at 1.
    change (loop_body env u _) with (loop_body env u st0).
    rewrite Hloop. unfold ret. apply save_report_cases. reflexivity. }
  split; [reflexivity |]. split; [reflexivity |].
  split; [exact Hfs |].
  unfold st0, st2. cbn [trace set_report add_events]. rewrite Et. simpl.
  rewrite !Forall_app. repeat split; try (repeat constructor).
  apply mkdir_under_reports. exact Fm.
Qed.

(** C3: on the one-URL list whose fetch and convert succeed and whose
    remote-clean call fails, that is, throws (the request is rejected, as
    with an auth error, or the response lacks [choices[0].message]), the
    final report has total 1, successes 0, errors 1 and a single error
    entry carrying the remote error's message; nothing is written under
    the raw or the clean directory; and the report file, once written,
    holds that report. *)
Theorem clean_failure_reported env fs ds u html md err :
  falsy (OPENAI_API_KEY env) = false ->
  fst (createDirectories env (init_state fs ds)) = Ret tt ->
  linksExtractor_json env = LinksArray [u] ->
  (forall h, axios_get env h u = inr html) ->
  turndown env html = inr md ->
  (forall h, axios_post env h md u = inl err) ->
  (exists r ts,
      report (snd (main env fs ds)) = Some r /\
      total r = 1%Z /\ successes r = 0%Z /\ errors r = 1%Z /\
      details r = [Failure u (message err) ts] /\
      detail_status (Failure u (message err) ts) = "error" /\
      (fst (main env fs ds) = Ret tt ->
       files (snd (main env fs ds)) !! reportLatestPath env = Some (Json r))) /\
  no_pipeline_write env fs (snd (main env fs ds)).
Proof.
  intros Hkey Hdirs Hlinks Hget Htd Hpost.
  destruct (main_clean_failure env fs ds u html md err Hkey Hdirs Hlinks Hget Htd Hpost)
    as (st3 & r & ts0 & ts & Em & Hr & Hrv & Hfs & Hw).
  rewrite Em. split.
  - exists r, ts. rewrite save_cases_report. split; [exact Hr |].
    subst r. repeat split.
    unfold save_cases.
    destruct (write_error env _ _) as [e |]; [discriminate |].
    destruct (write_error env _ _) as [e |]; [discriminate |].
    intros _. cbn [snd files set_files]. apply lookup_insert_eq.
  - intros name.
    destruct (save_cases_writes env r st3) as (evs & Et & Fe & Hf).
    assert (Forall (under_reports env) (trace (snd (save_cases env r st3)))) as Hall
      by (rewrite Et; apply Forall_app; split; assumption).
    split; [apply under_reports_not_raw; exact Hall |].
    split; [apply under_reports_not_clean; exact Hall |].
    rewrite !Hf, Hfs; [split; reflexivity | ..].
    + intros f. apply cleanPath_not_reports.
    + intros f. apply rawPath_not_reports.
Qed.

Lemma clean_failure_reported_witness :
  falsy (OPENAI_API_KEY Sample.clean_fails) = false /\
  fst (createDirectories Sample.clean_fails (init_state ∅ ∅)) = Ret tt /\
  linksExtractor_json Sample.clean_fails = LinksArray [Sample.a_test_x] /\
  (forall h, axios_get Sample.clean_fails h Sample.a_test_x = inr Sample.page_html) /\
  turndown Sample.clean_fails Sample.page_html = inr Sample.page_raw /\
  (forall h, axios_post Sample.clean_fails h Sample.page_raw Sample.a_test_x
             = inl Sample.unauthorized) /\
  ((exists r ts,
       report (snd (main Sample.clean_fails ∅ ∅)) = Some r /\
       total r = 1%Z /\ successes r = 0%Z /\ errors r = 1%Z /\
       details r = [Failure Sample.a_test_x (message Sample.unauthorized) ts] /\
       detail_status (Failure Sample.a_test_x (message Sample.unauthorized) ts) = "error" /\
       (fst (main Sample.clean_fails ∅ ∅) = Ret tt ->
        files (snd (main Sample.clean_fails ∅ ∅)) !! reportLatestPath Sample.clean_fails
        = Some (Json r))) /\
   no_pipeline_write Sample.clean_fails ∅ (snd (main Sample.clean_fails ∅ ∅))).
Proof.
  assert (fst (createDirectories Sample.clean_fails (init_state ∅ ∅)) = Ret tt) as Hd
    by (vm_compute; reflexivity).
  repeat (split; [first [reflexivity | exact Hd | intros h; reflexivity] |]).
  exact (clean_failure_reported Sample.clean_fails ∅ ∅ Sample.a_test_x Sample.page_html
           Sample.page_raw Sample.unauthorized eq_refl Hd eq_refl (fun _ => eq_refl)
           eq_refl (fun _ => eq_refl)).
Defined.

(** ** The file-name derivation against its description *)

Lemma in_class_allowed c : in_class c = allowed c.
Proof. destruct c as [[] [] [] [] [] [] [] []]; vm_compute; reflexivity. Qed.

Lemma is_slash_eqb c : is_slash c = Ascii.eqb "/"%char c.
Proof. destruct c as [[] [] [] [] [] [] [] []]; vm_compute; reflexivity. Qed.

Lemma replace_outside_class_map s :
  replace_outside_class s =
  string_of_list_ascii
    (List.map (fun c => if allowed c then c else "_"%char) (list_ascii_of_string s)).
Proof.
  induction s as [| c s IH]; [reflexivity |].
  simpl. rewrite IH, in_class_allowed. reflexivity.
Qed.

Lemma drop_while_app {A} (p : A -> bool) (a b : list A) :
  drop_while p (a ++ b) =
  if forallb p a then drop_while p b else (drop_while p a ++ b)%list.
Proof.
  induction a as [| x a IH]; [reflexivity |].
  simpl. destruct (p x); [exact IH | reflexivity].
Qed.

Lemma slashes_to_end_forallb s :
  slashes_to_end s =
  negb (String.eqb s "") && forallb (Ascii.eqb "/"%char) (list_ascii_of_string s).
Proof.
  induction s as [| c s IH]; [reflexivity |].
  cbn [slashes_to_end list_ascii_of_string forallb].
  destruct s as [| d s].
  - rewrite is_slash_eqb. cbn. rewrite andb_true_r. reflexivity.
  - rewrite IH, is_slash_eqb. reflexivity.
Qed.

Lemma forallb_rev {A} (p : A -> bool) (l : list A) : forallb p (List.rev l) = forallb p l.
Proof.
  induction l as [| x l IH]; [reflexivity |].
  simpl. rewrite forallb_app, IH. simpl. rewrite andb_true_r. apply andb_comm.
Qed.

Lemma strip_all_slashes s :
  forallb (Ascii.eqb "/"%char) (list_ascii_of_string s) = true ->
  strip_trailing_slashes s = "".
Proof.
  destruct s as [| c s]; [reflexivity |].
  intros H. cbn [strip_trailing_slashes]. rewrite slashes_to_end_forallb, H. reflexivity.
Qed.

Lemma strip_trailing_slashes_rev s :
  strip_trailing_slashes s =
  string_of_list_ascii
    (List.rev (drop_while (Ascii.eqb "/"%char) (List.rev (list_ascii_of_string s)))).
Proof.
  induction s as [| c s IH]; [reflexivity |].
  cbn [strip_trailing_slashes list_ascii_of_string List.rev].
  rewrite drop_while_app, forallb_rev, slashes_to_end_forallb.
  cbn [list_ascii_of_string forallb String.eqb negb andb drop_while].
  destruct (forallb (Ascii.eqb "/"%char) (list_ascii_of_string s)) eqn:Hall.
  - rewrite andb_true_r.
    destruct (Ascii.eqb "/"%char c); [reflexivity |].
    rewrite (strip_all_slashes s Hall). reflexivity.
  - rewrite andb_false_r, IH, rev_app_distr. reflexivity.
Qed.

Lemma sanitize_described path :
  replace_outside_class (strip_trailing_slashes path) = described_sanitize path.
Proof.
  unfold described_sanitize.
  rewrite replace_outside_class_map, strip_trailing_slashes_rev,
    list_ascii_of_string_of_list_ascii.
  reflexivity.
Qed.

Lemma generateFileName_described env url u :
  URL_new env url = Some u ->
  generateFileName env url = inr (described_file_name u).
Proof.
  intros Hu. unfold generateFileName, described_file_name. rewrite Hu, sanitize_described.
  set (name := hostname u +:+ described_sanitize (pathname u)).
  destruct (decide (name = "" \/ name = hostname u)) as [[H | H] | H].
  - rewrite (proj2 (String.eqb_eq name "") H). reflexivity.
  - rewrite (proj2 (String.eqb_eq name (hostname u)) H), orb_true_r. reflexivity.
  - destruct (String.eqb_spec name ""); [tauto |].
    destruct (String.eqb_spec name (hostname u)); [tauto |]. reflexivity.
Qed.

(** C6: the file name is a function of the URL: the host name followed by
    the path with trailing slashes stripped and every character outside
    [A-Za-z0-9-_] replaced by an underscore, with [_index] appended when
    that is empty or the bare host name; two calls on one URL agree; and
    the two documented examples come out as documented. *)
Theorem file_name_derivation :
  (forall env url u,
      URL_new env url = Some u ->
      generateFileName env url = inr (described_file_name u)) /\
  (forall env url r1 r2,
      generateFileName env url = r1 -> generateFileName env url = r2 -> r1 = r2) /\
  (forall env,
      URL_new env = WHATWG.parse ->
      generateFileName env "https://example.com/" = inr "example.com_index" /\
      generateFileName env "https://example.com/docs/page" = inr "example.com_docs_page").
Proof.
  split; [exact generateFileName_described |].
  split; [intros env url r1 r2 <- <-; reflexivity |].
  intros env Hp. unfold generateFileName. rewrite Hp.
  split; vm_compute; reflexivity.
Qed.

Lemma file_name_derivation_witness :
  URL_new (Sample.healthy Sample.one_link) "https://example.com/docs/page"
    = Some example_docs_page /\
  URL_new (Sample.healthy Sample.one_link) = WHATWG.parse /\
  generateFileName (Sample.healthy Sample.one_link) "https://example.com/docs/page"
    = inr (described_file_name example_docs_page) /\
  generateFileName (Sample.healthy Sample.one_link) "https://example.com/"
    = inr "example.com_index" /\
  generateFileName (Sample.healthy Sample.one_link) "https://example.com/docs/page"
    = inr "example.com_docs_page".
Proof.
  assert (URL_new (Sample.healthy Sample.one_link) "https://example.com/docs/page"
          = Some example_docs_page) as Hu by (vm_compute; reflexivity).
  split; [exact Hu |]. split; [reflexivity |].
  split; [exact (proj1 file_name_derivation _ _ example_docs_page Hu) |].
  exact (proj2 (proj2 file_name_derivation) (Sample.healthy Sample.one_link) eq_refl).
Defined.

(** C10: the derivation is partial: on the string "not a url", which is no
    URL, it throws; it returns a name exactly for the strings that parse;
    and the host name enters the result as it is, so that its dots stay
    while those of the path become underscores. *)
Theorem file_name_partial :
  (forall env,
      URL_new env = WHATWG.parse ->
      generateFileName env "not a url" = inl invalid_url) /\
  (forall env url,
      (exists name, generateFileName env url = inr name) <->
      (exists u, URL_new env url = Some u)) /\
  (forall env url u,
      URL_new env url = Some u ->
      exists rest, generateFileName env url = inr (hostname u +:+ rest)) /\
  (forall env,
      URL_new env = WHATWG.parse ->
      generateFileName env "https://a.test/v1.2" = inr "a.test_v1_2").
Proof.
  split; [| split; [| split]].
  - intros env Hp. unfold generateFileName. rewrite Hp. vm_compute. reflexivity.
  - intros env url. unfold generateFileName.
    destruct (URL_new env url) as [u |]; split.
    + intros _. exists u. reflexivity.
    + intros _. eexists. reflexivity.
    + intros [name H]. discriminate H.
    + intros [u H]. discriminate H.
  - intros env url u Hu. unfold generateFileName. rewrite Hu.
    destruct (_ || _)%bool.
    + eexists. rewrite append_assoc. reflexivity.
    + eexists. reflexivity.
  - intros env Hp. unfold generateFileName. rewrite Hp. vm_compute. reflexivity.
Qed.

Lemma file_name_partial_witness :
  URL_new (Sample.healthy Sample.one_link) = WHATWG.parse /\
  URL_new (Sample.healthy Sample.one_link) "https://a.test/v1.2" = Some a_test_v1_2 /\
  generateFileName (Sample.healthy Sample.one_link) "not a url" = inl invalid_url /\
  (exists rest,
      generateFileName (Sample.healthy Sample.one_link) "https://a.test/v1.2"
      = inr (hostname a_test_v1_2 +:+ rest)) /\
  generateFileName (Sample.healthy Sample.one_link) "https://a.test/v1.2"
    = inr "a.test_v1_2".
Proof.
  assert (URL_new (Sample.healthy Sample.one_link) "https://a.test/v1.2"
          = Some a_test_v1_2) as Hu by (vm_compute; reflexivity).
  split; [reflexivity |]. split; [exact Hu |].
  split; [exact (proj1 file_name_partial (Sample.healthy Sample.one_link) eq_refl) |].
  split; [exact (proj1 (proj2 (proj2 file_name_partial)) _ _ a_test_v1_2 Hu) |].
  exact (proj2 (proj2 (proj2 file_name_partial)) (Sample.healthy Sample.one_link) eq_refl).
Defined.

(** ** The compression figure *)

Lemma round_half_up_nearest m e : nearest_tenth (Number.round_half_up m e 1) m e.
Proof.
  unfold nearest_tenth, Number.round_half_up.
  change (10 ^ Z.of_nat 1)%Z with 10%Z.
  destruct (Z.leb_spec 0 e) as [He | He].
  - rewrite (Z.max_l 0 (- e)) by lia. rewrite (Z.max_r 0 e) by lia.
    change (2 ^ 0)%Z with 1%Z. lia.
  - rewrite (Z.max_r 0 (- e)) by lia. rewrite (Z.max_l 0 e) by lia.
    change (2 ^ 0)%Z with 1%Z.
    assert (0 < 2 ^ (- e))%Z as Hp by (apply Z.pow_pos_nonneg; lia).
    set (p := (2 ^ (- e))%Z) in *.
    pose proof (Z.div_mod (2 * (Z.pos m * 10) + p) (2 * p) ltac:(lia)) as Hd.
    pose proof (Z.mod_pos_bound (2 * (Z.pos m * 10) + p) (2 * p) ltac:(lia)) as Hm.
    set (n := ((2 * (Z.pos m * 10) + p) / (2 * p))%Z) in *.
    nia.
Qed.

Lemma loop_body_success env url st r result st1 :
  report st = Some r ->
  extractToMarkdown env url st = (Ret result, st1) ->
  loop_body env url st =
  (Ret tt,
   add_events [SetTimeout 1000]
     (set_report (Some (push_detail (success_detail env url result) (incr_successes r)))
                 st1)).
Proof.
  intros Hr He. rewrite (loop_body_cases env url r st Hr). unfold loop_cases.
  rewrite <- extractToMarkdown_cases, He. reflexivity.
Qed.

(** C7: for a successful URL the report entry's compression is
    [(1 - cleanSize / rawSize) * 100], in double arithmetic, printed by
    [toFixed(1)] with a percent sign: the decimal with one fractional digit
    nearest to that number.  Every success entry of a final report is so;
    and for rawSize 35410 and cleanSize 3717 the string is "89.5%". *)
Theorem compression_recorded :
  (forall env url st r result st1,
      report st = Some r ->
      extractToMarkdown env url st = (Ret result, st1) ->
      exists st' r',
        loop_body env url st = (Ret tt, st') /\
        report st' = Some r' /\
        details r' =
        (details r ++
         [Success url (fileName result) (js_length (clean result)) (js_length (raw result))
            (Number.toFixed (Number_toString env)
               (Number.mul
                  (Number.sub (Number.of_Z 1)
                     (Number.div (Number.of_Z (js_length (clean result)))
                                 (Number.of_Z (js_length (raw result)))))
                  (Number.of_Z 100)) 1 +:+ "%")
            (paths result)])%list) /\
  (forall env cleanSize rawSize s m e,
      compression_number cleanSize rawSize = S754_finite s m e ->
      Number.ge_ten_pow_21 m e = false ->
      compression_string env cleanSize rawSize =
      ((if s then "-" else "") +:+
       Number.fixed_digits (Number.round_half_up m e 1) 1) +:+ "%" /\
      nearest_tenth (Number.round_half_up m e 1) m e) /\
  (forall env fs ds r url name cleanSize rawSize compression p,
      report (snd (main env fs ds)) = Some r ->
      In (Success url name cleanSize rawSize compression p) (details r) ->
      compression = compression_string env cleanSize rawSize) /\
  (forall env, compression_string env 3717 35410 = "89.5%").
Proof.
  split; [| split; [| split]].
  - intros env url st r result st1 Hr He.
    eexists _, _. split; [exact (loop_body_success env url st r result st1 Hr He) |].
    split; reflexivity.
  - intros env cleanSize rawSize s m e Hn Hb.
    split; [| apply round_half_up_nearest].
    unfold compression_string. rewrite Hn. unfold Number.toFixed. rewrite Hb.
    reflexivity.
  - intros env fs ds r url name cleanSize rawSize compression p Hr Hin.
    destruct (main_report_inv env fs ds r Hr) as (urls & _ & _ & _ & Hu & _).
    destruct (main_report_post env fs ds urls r Hu Hr) as (_ & _ & _ & Hf & _).
    rewrite List.Forall_forall in Hf. exact (Hf _ Hin).
  - intros env. vm_compute. reflexivity.
Qed.

Lemma compression_recorded_witness :
  report (sample_started (Sample.healthy Sample.one_link))
    = Some (sample_report (Sample.healthy Sample.one_link)) /\
  extractToMarkdown (Sample.healthy Sample.one_link) Sample.a_test_x
                    (sample_started (Sample.healthy Sample.one_link))
    = (Ret (sample_result Sample.page_raw),
       sample_extracted (Sample.healthy Sample.one_link)) /\
  (exists st' r',
      loop_body (Sample.healthy Sample.one_link) Sample.a_test_x
                (sample_started (Sample.healthy Sample.one_link)) = (Ret tt, st') /\
      report st' = Some r' /\
      details r' =
      (details (sample_report (Sample.healthy Sample.one_link)) ++
       [Success Sample.a_test_x "a.test_x" 7 30 "76.7%"
                (paths (sample_result Sample.page_raw))])%list).
Proof.
  assert (extractToMarkdown (Sample.healthy Sample.one_link) Sample.a_test_x
                            (sample_started (Sample.healthy Sample.one_link))
          = (Ret (sample_result Sample.page_raw),
             sample_extracted (Sample.healthy Sample.one_link))) as He
    by (vm_compute; reflexivity).
  split; [reflexivity |]. split; [exact He |].
  exact (proj1 compression_recorded (Sample.healthy Sample.one_link) Sample.a_test_x
           (sample_started (Sample.healthy Sample.one_link))
           (sample_report (Sample.healthy Sample.one_link))
           (sample_result Sample.page_raw) _ eq_refl He).
Defined.

(** ** A raw markdown of length zero *)

Lemma binary_round_aux_sign mx ex lx :
  Number.non_negative (binary_round_aux Number.prec Number.emax false mx ex lx) = true.
Proof.
  unfold binary_round_aux.
  destruct (shr_fexp Number.prec Number.emax mx ex lx) as [mrs' e'].
  destruct (shr_fexp Number.prec Number.emax _ e' loc_Exact) as [mrs'' e''].
  destruct (shr_m mrs''); try reflexivity.
  destruct (Z.leb _ _); reflexivity.
Qed.

Lemma of_Z_sign z : (0 <= z)%Z -> Number.non_negative (Number.of_Z z) = true.
Proof.
  intros Hz. destruct z as [| p | p]; [reflexivity | | lia].
  unfold Number.of_Z, binary_normalize, binary_round.
  destruct (shl_align _ _ _) as [mz ez]. apply binary_round_aux_sign.
Qed.

Lemma js_length_nonneg s : (0 <= js_length s)%Z.
Proof. unfold js_length. lia. Qed.

(** Dividing by zero: whatever the dividend, the compression is no finite
    number, and for a dividend that is not negative it prints as "NaN" or
    "-Infinity". *)
Lemma division_by_zero toString (x : Number.number) :
  Number.non_negative x = true ->
  Number.is_finite
    (Number.mul (Number.sub (Number.of_Z 1) (Number.div x (Number.of_Z 0)))
                (Number.of_Z 100)) = false /\
  (Number.toFixed toString
     (Number.mul (Number.sub (Number.of_Z 1) (Number.div x (Number.of_Z 0)))
                 (Number.of_Z 100)) 1 = "NaN" \/
   Number.toFixed toString
     (Number.mul (Number.sub (Number.of_Z 1) (Number.div x (Number.of_Z 0)))
                 (Number.of_Z 100)) 1 = "-Infinity").
Proof.
  destruct x as [[] | [] | | [] m e]; intros H; try discriminate H;
    vm_compute; auto.
Qed.

(** C8: a raw markdown of length zero is not guarded against: the
    extraction still counts as a success, the division by zero is carried
    out, and the entry appended to the report's details records a
    compression that is not a finite number: the string is "NaN%" or
    "-Infinity%" ("NaN%" when the clean markdown is empty too). *)
Theorem zero_length_raw_not_guarded env url st r result st1 :
  report st = Some r ->
  extractToMarkdown env url st = (Ret result, st1) ->
  raw result = "" ->
  exists st' r' compression,
    loop_body env url st = (Ret tt, st') /\
    report st' = Some r' /\
    details r' =
    (details r ++
     [Success url (fileName result) (js_length (clean result)) 0 compression
              (paths result)])%list /\
    successes r' = (successes r + 1)%Z /\
    errors r' = errors r /\
    total r' = total r /\
    timestamp r' = timestamp r /\
    directories r' = directories r /\
    compression =
    Number.toFixed (Number_toString env)
      (Number.mul
         (Number.sub (Number.of_Z 1)
            (Number.div (Number.of_Z (js_length (clean result))) (Number.of_Z 0)))
         (Number.of_Z 100)) 1 +:+ "%" /\
    Number.is_finite
      (Number.mul
         (Number.sub (Number.of_Z 1)
            (Number.div (Number.of_Z (js_length (clean result))) (Number.of_Z 0)))
         (Number.of_Z 100)) = false /\
    (compression = "NaN%" \/ compression = "-Infinity%") /\
    (clean result = "" -> compression = "NaN%").
Proof.
  intros Hr He Hraw.
  eexists _, _, _. split; [exact (loop_body_success env url st r result st1 Hr He) |].
  split; [reflexivity |].
  unfold success_detail. rewrite Hraw. change (js_length "") with 0%Z.
  split; [reflexivity |].
  split; [reflexivity |]. split; [reflexivity |]. split; [reflexivity |].
  split; [reflexivity |]. split; [reflexivity |]. split; [reflexivity |].
  destruct (division_by_zero (Number_toString env) (Number.of_Z (js_length (clean result)))
              (of_Z_sign _ (js_length_nonneg _))) as [Hnf Hs].
  split; [exact Hnf |]. split.
  - unfold compression_string, compression_number.
    destruct Hs as [H | H]; rewrite H; auto.
  - intros ->. vm_compute. reflexivity.
Qed.

Lemma zero_length_raw_not_guarded_witness :
  report (sample_started Sample.empty_raw) = Some (sample_report Sample.empty_raw) /\
  extractToMarkdown Sample.empty_raw Sample.a_test_x (sample_started Sample.empty_raw)
    = (Ret (sample_result ""), sample_extracted Sample.empty_raw) /\
  raw (sample_result "") = "" /\
  (exists st' r' compression,
      loop_body Sample.empty_raw Sample.a_test_x (sample_started Sample.empty_raw)
      = (Ret tt, st') /\
      report st' = Some r' /\
      details r' =
      (details (sample_report Sample.empty_raw) ++
       [Success Sample.a_test_x "a.test_x" 7 0 compression
                (paths (sample_result ""))])%list /\
      successes r' = (successes (sample_report Sample.empty_raw) + 1)%Z /\
      errors r' = errors (sample_report Sample.empty_raw) /\
      total r' = total (sample_report Sample.empty_raw) /\
      timestamp r' = timestamp (sample_report Sample.empty_raw) /\
      directories r' = directories (sample_report Sample.empty_raw) /\
      compression = "-Infinity%" /\
      Number.is_finite
        (Number.mul
           (Number.sub (Number.of_Z 1) (Number.div (Number.of_Z 7) (Number.of_Z 0)))
           (Number.of_Z 100)) = false /\
      (compression = "NaN%" \/ compression = "-Infinity%") /\
      (clean (sample_result "") = "" -> compression = "NaN%")).
Proof.
  assert (extractToMarkdown Sample.empty_raw Sample.a_test_x
                            (sample_started Sample.empty_raw)
          = (Ret (sample_result ""), sample_extracted Sample.empty_raw)) as He
    by (vm_compute; reflexivity).
  split; [reflexivity |]. split; [exact He |]. split; [reflexivity |].
  exact (zero_length_raw_not_guarded Sample.empty_raw Sample.a_test_x
           (sample_started Sample.empty_raw) (sample_report Sample.empty_raw)
           (sample_result "") _ eq_refl He eq_refl).
Defined.

(** ** The exit status *)








(** * Further properties of the code *)

(** ** validateMarkdownQuality *)

Lemma starts_with_heading s : starts_with "## " s = true -> includes s "# " = true.
Proof.
  intros H.
  destruct s as [| a [| b [| c s]]]; cbn [starts_with] in H;
    rewrite ?andb_false_r in H; try discriminate H.
  apply andb_true_iff in H as [_ H]. apply andb_true_iff in H as [Hb H].
  apply andb_true_iff in H as [Hc _].
  cbn [includes starts_with]. rewrite Hb, Hc. cbn. apply orb_true_r.
Qed.

Lemma includes_heading s : includes s "## " = true -> includes s "# " = true.
Proof.
  induction s as [| a s IH]; [discriminate |].
  intros H. cbn [includes] in H. apply orb_true_iff in H as [H | H].
  - apply starts_with_heading. exact H.
  - cbn [includes]. rewrite (IH H). apply orb_true_r.
Qed.

Lemma starts_with_bold s : starts_with "**" s = true -> starts_with "*" s = true.
Proof.
  destruct s as [| a s]; [discriminate |].
  cbn [starts_with]. intros H. apply andb_true_iff in H as [-> _]. reflexivity.
Qed.

Lemma includes_bold s : includes s "**" = true -> includes s "*" = true.
Proof.
  induction s as [| a s IH]; [discriminate |].
  intros H. cbn [includes] in H. apply orb_true_iff in H as [H | H].
  - cbn [includes]. rewrite (starts_with_bold _ H). reflexivity.
  - cbn [includes]. rewrite (IH H). apply orb_true_r.
Qed.

(** [includes] finds exactly the substrings. *)
Lemma starts_with_app sub s : starts_with sub (sub +:+ s) = true.
Proof.
  induction sub as [| a sub IH]; [reflexivity |].
  change (String a sub +:+ s) with (String a (sub +:+ s)).
  cbn [starts_with]. rewrite Ascii.eqb_refl, IH. reflexivity.
Qed.

Lemma starts_with_inv sub s :
  starts_with sub s = true -> exists rest, s = sub +:+ rest.
Proof.
  revert s. induction sub as [| a sub IH]; intros s H.
  - exists s. reflexivity.
  - destruct s as [| b s]; [discriminate H |].
    cbn [starts_with] in H. apply andb_true_iff in H as [Hab H].
    apply Ascii.eqb_eq in Hab as ->.
    destruct (IH s H) as [rest ->]. exists rest. reflexivity.
Qed.

Lemma includes_iff s sub :
  includes s sub = true <-> exists before after, s = before +:+ sub +:+ after.
Proof.
  split.
  - induction s as [| a s IH]; cbn [includes]; intros H.
    + rewrite orb_false_r in H. destruct (starts_with_inv _ _ H) as [rest ->].
      exists "", rest. reflexivity.
    + apply orb_true_iff in H as [H | H].
      * destruct (starts_with_inv _ _ H) as [rest ->]. exists "", rest. reflexivity.
      * destruct (IH H) as (before & after & ->).
        exists (String a before), after. reflexivity.
  - intros (before & after & ->).
    induction before as [| a before IH].
    + change ("" +:+ sub +:+ after) with (sub +:+ after).
      destruct (sub +:+ after) eqn:E; cbn [includes]; rewrite <- ?E;
        rewrite starts_with_app; reflexivity.
    + change (String a before +:+ sub +:+ after)
        with (String a (before +:+ sub +:+ after)).
      cbn [includes]. rewrite IH. apply orb_true_r.
Qed.

Lemma split_char_length sep s :
  length (split_char sep s) = S (count_char sep s).
Proof.
  induction s as [| c s IH]; [reflexivity |].
  cbn [split_char count_char]. destruct (Ascii.eqb c sep).
  - cbn [length]. rewrite IH. reflexivity.
  - destruct (split_char sep s) as [| piece pieces]; [discriminate IH |].
    exact IH.
Qed.

Lemma count_char_length c s : (count_char c s <= String.length s)%nat.
Proof.
  induction s as [| d s IH]; [apply le_n |].
  cbn [count_char String.length]. destruct (Ascii.eqb d c); simpl; lia.
Qed.

Lemma join_split sep s : join_char sep (split_char sep s) = s.
Proof.
  induction s as [| c s IH]; [reflexivity |].
  cbn [split_char]. destruct (Ascii.eqb_spec c sep) as [-> | Hne].
  - pose proof (split_char_length sep s) as Hl.
    destruct (split_char sep s) as [| piece pieces]; [discriminate Hl |].
    change (join_char sep ("" :: piece :: pieces))
      with ("" +:+ String sep (join_char sep (piece :: pieces))).
    rewrite IH. reflexivity.
  - pose proof (split_char_length sep s) as Hl.
    destruct (split_char sep s) as [| piece pieces]; [discriminate Hl |].
    destruct pieces as [| piece' pieces].
    + cbn [join_char] in *. rewrite IH. reflexivity.
    + change (join_char sep (String c piece :: piece' :: pieces))
        with (String c (piece +:+ String sep (join_char sep (piece' :: pieces)))).
      change (join_char sep (piece :: piece' :: pieces))
        with (piece +:+ String sep (join_char sep (piece' :: pieces))) in IH.
      rewrite IH. reflexivity.
Qed.

Lemma split_pieces_free sep s : Forall (fun piece => count_char sep piece = 0%nat) (split_char sep s).
Proof.
  induction s as [| c s IH]; [repeat constructor |].
  cbn [split_char]. destruct (Ascii.eqb c sep) eqn:E.
  - constructor; [reflexivity | exact IH].
  - destruct (split_char sep s) as [| piece pieces]; [repeat constructor; cbn; rewrite E; reflexivity |].
    inversion IH as [| ? ? Hp Hps]; subst.
    constructor; [| exact Hps]. cbn [count_char]. rewrite E, Hp. reflexivity.
Qed.

(** X1: a document with a second-level heading is reported as having a
    main title, whether it has one or not: "## " contains "# ". *)
Theorem quality_structure_implies_title markdown :
  Quality.hasStructure (validateMarkdownQuality markdown) = true ->
  Quality.hasMainTitle (validateMarkdownQuality markdown) = true.
Proof. apply includes_heading. Qed.

Lemma quality_structure_implies_title_witness :
  Quality.hasStructure (validateMarkdownQuality "## Section only") = true /\
  Quality.hasMainTitle (validateMarkdownQuality "## Section only") = true.
Proof.
  split; [reflexivity |].
  apply (quality_structure_implies_title "## Section only"). reflexivity.
Defined.

(** X2: the formatting flag says no more than that the document contains
    an asterisk: the test for "**" never decides it. *)
Theorem quality_formatting_is_asterisk markdown :
  Quality.hasFormatting (validateMarkdownQuality markdown) = includes markdown "*".
Proof.
  cbn [validateMarkdownQuality Quality.hasFormatting].
  destruct (includes markdown "**") eqn:E; [| reflexivity].
  rewrite (includes_bold markdown E). reflexivity.
Qed.

(** X3: the line count is the number of newline characters plus one, so
    it is at least 1 (also for the empty document) and at most the size
    plus one; the word count that density divides is at least 1 too. *)
Theorem quality_lines_bounds markdown :
  Quality.lines (validateMarkdownQuality markdown)
  = (Z.of_nat (count_char newline markdown) + 1)%Z /\
  (1 <= Quality.lines (validateMarkdownQuality markdown)
     <= Quality.size (validateMarkdownQuality markdown) + 1)%Z /\
  Quality.density (validateMarkdownQuality markdown)
  = Number.div (Number.of_Z (Z.of_nat (count_char space markdown) + 1))
               (Number.of_Z (Z.of_nat (count_char newline markdown) + 1)).
Proof.
  cbn [validateMarkdownQuality Quality.lines Quality.size Quality.density].
  rewrite !split_char_length. unfold js_length.
  pose proof (count_char_length newline markdown).
  replace (Z.of_nat (S (count_char newline markdown)))
    with (Z.of_nat (count_char newline markdown) + 1)%Z by lia.
  replace (Z.of_nat (S (count_char space markdown)))
    with (Z.of_nat (count_char space markdown) + 1)%Z by lia.
  repeat split; lia.
Qed.

(** ** generateFileName: the shape of the name *)

Lemma append_nil_r (s : string) : s +:+ "" = s.
Proof.
  induction s as [| c s IH]; [reflexivity |].
  change (String c (s +:+ "") = String c s). f_equal. exact IH.
Qed.

Lemma append_eq_self (h s : string) : h +:+ s = h -> s = "".
Proof.
  intros H. apply (append_cancel h). rewrite append_nil_r. exact H.
Qed.

Lemma append_eq_nil (h s : string) : h +:+ s = "" -> s = "".
Proof.
  destruct h as [| c h]; [intros H; exact H | discriminate].
Qed.

Lemma replace_outside_class_nil s : replace_outside_class s = "" -> s = "".
Proof. destruct s; [reflexivity | discriminate]. Qed.

Lemma strip_nil_only_slashes s :
  strip_trailing_slashes s = "" -> only_slashes s = true.
Proof.
  destruct s as [| c s]; [reflexivity |].
  cbn [strip_trailing_slashes]. rewrite slashes_to_end_forallb.
  destruct (forallb _ _) eqn:E; [intros _; exact E |].
  rewrite andb_false_r. discriminate.
Qed.

Lemma in_class_underscore : in_class "_"%char = true.
Proof. reflexivity. Qed.

Lemma replace_outside_class_in_class s c :
  In c (list_ascii_of_string (replace_outside_class s)) -> in_class c = true.
Proof.
  induction s as [| d s IH]; [intros [] |].
  cbn [replace_outside_class list_ascii_of_string]. intros [<- | H]; [| exact (IH H)].
  destruct (in_class d) eqn:E; [exact E | reflexivity].
Qed.

(** The name, by whether the path names the root. *)
Lemma generateFileName_shape env url u :
  URL_new env url = Some u ->
  generateFileName env url =
  inr (hostname u +:+
       (if only_slashes (pathname u) then "_index"
        else replace_outside_class (strip_trailing_slashes (pathname u)))) /\
  (only_slashes (pathname u) = false ->
   replace_outside_class (strip_trailing_slashes (pathname u)) <> "").
Proof.
  intros Hu. unfold generateFileName. rewrite Hu.
  destruct (only_slashes (pathname u)) eqn:Hs.
  - rewrite (strip_all_slashes _ Hs). cbn [replace_outside_class].
    rewrite append_nil_r, String.eqb_refl, orb_true_r. split; [reflexivity | discriminate].
  - assert (replace_outside_class (strip_trailing_slashes (pathname u)) <> "") as Hne.
    { intros H. apply replace_outside_class_nil, strip_nil_only_slashes in H. congruence. }
    split; [| intros _; exact Hne].
    destruct (String.eqb_spec (hostname u +:+ replace_outside_class
                                (strip_trailing_slashes (pathname u))) "") as [E | _].
    { apply append_eq_nil in E. contradiction. }
    destruct (String.eqb_spec (hostname u +:+ replace_outside_class
                                (strip_trailing_slashes (pathname u))) (hostname u))
      as [E | _].
    { apply append_eq_self in E. contradiction. }
    reflexivity.
Qed.

(** X4: the suffix [_index] is appended exactly for the root page, that is
    when the path consists of slashes only; any other path contributes its
    sanitised form, which is not empty, and no suffix. *)
Theorem index_suffix_for_root env url u :
  URL_new env url = Some u ->
  (only_slashes (pathname u) = true ->
   generateFileName env url = inr (hostname u +:+ "_index")) /\
  (only_slashes (pathname u) = false ->
   generateFileName env url
   = inr (hostname u +:+ replace_outside_class (strip_trailing_slashes (pathname u))) /\
   replace_outside_class (strip_trailing_slashes (pathname u)) <> "").
Proof.
  intros Hu. destruct (generateFileName_shape env url u Hu) as [H Hne].
  split; intros Hs; rewrite Hs in H; [exact H | split; [exact H | exact (Hne Hs)]].
Qed.

Lemma index_suffix_for_root_witness :
  URL_new (Sample.healthy Sample.one_link) "https://a.test" = Some {| hostname := "a.test"; pathname := "/" |} /\
  generateFileName (Sample.healthy Sample.one_link) "https://a.test" = inr "a.test_index".
Proof.
  assert (URL_new (Sample.healthy Sample.one_link) "https://a.test"
          = Some {| hostname := "a.test"; pathname := "/" |}) as Hu
    by (vm_compute; reflexivity).
  split; [exact Hu |].
  exact (proj1 (index_suffix_for_root _ _ _ Hu) eq_refl).
Defined.

(** X5: what the name adds to the host name is never empty and is made of
    letters, digits, hyphens and underscores only: it holds no slash and no
    dot, so the path of the URL cannot steer the file out of its
    directory. *)
Theorem file_name_tail_is_safe env url u :
  URL_new env url = Some u ->
  exists tail,
    generateFileName env url = inr (hostname u +:+ tail) /\
    tail <> "" /\
    forall c, In c (list_ascii_of_string tail) ->
              in_class c = true /\ c <> "/"%char /\ c <> "."%char.
Proof.
  intros Hu. destruct (generateFileName_shape env url u Hu) as [H Hne].
  eexists. split; [exact H |].
  assert (forall c, in_class c = true -> c <> "/"%char /\ c <> "."%char) as Hsafe
    by (intros c Hc; split; intros ->; discriminate Hc).
  destruct (only_slashes (pathname u)).
  - split; [discriminate |]. intros c Hc.
    assert (in_class c = true) as Hin.
    { cbn in Hc. repeat (destruct Hc as [<- | Hc]; [reflexivity |]). destruct Hc. }
    split; [exact Hin | exact (Hsafe c Hin)].
  - split; [exact (Hne eq_refl) |]. intros c Hc.
    pose proof (replace_outside_class_in_class _ _ Hc) as Hin.
    split; [exact Hin | exact (Hsafe c Hin)].
Qed.

Lemma file_name_tail_is_safe_witness :
  URL_new (Sample.healthy Sample.one_link) "https://a.test/v1.2" = Some a_test_v1_2 /\
  exists tail,
    generateFileName (Sample.healthy Sample.one_link) "https://a.test/v1.2"
    = inr (hostname a_test_v1_2 +:+ tail) /\
    tail <> "" /\
    forall c, In c (list_ascii_of_string tail) ->
              in_class c = true /\ c <> "/"%char /\ c <> "."%char.
Proof.
  assert (URL_new (Sample.healthy Sample.one_link) "https://a.test/v1.2"
          = Some a_test_v1_2) as Hu by (vm_compute; reflexivity).
  split; [exact Hu |].
  exact (file_name_tail_is_safe _ _ _ Hu).
Defined.

(** ** Collisions of names and separation of paths *)

Lemma list_ascii_of_string_app (a b : string) :
  list_ascii_of_string (a +:+ b) = (list_ascii_of_string a ++ list_ascii_of_string b)%list.
Proof.
  induction a as [| c a IH]; [reflexivity |].
  change (String c a +:+ b) with (String c (a +:+ b)).
  cbn [list_ascii_of_string]. rewrite IH. reflexivity.
Qed.

Lemma slashes_only k : forallb (Ascii.eqb "/"%char) (List.rev (list_ascii_of_string (slashes k))) = true.
Proof.
  rewrite forallb_rev. induction k as [| k IH]; [reflexivity |].
  cbn [slashes list_ascii_of_string forallb]. rewrite IH. reflexivity.
Qed.

Lemma strip_trailing_slashes_app s k :
  strip_trailing_slashes (s +:+ slashes k) = strip_trailing_slashes s.
Proof.
  rewrite !strip_trailing_slashes_rev, list_ascii_of_string_app, rev_app_distr,
    drop_while_app, slashes_only.
  reflexivity.
Qed.

(** X6: trailing slashes of the path do not reach the name: two URLs of
    one host whose paths differ only by trailing slashes get the same file
    name, hence the same output files. *)
Theorem trailing_slashes_collide env url1 url2 u1 u2 k :
  URL_new env url1 = Some u1 ->
  URL_new env url2 = Some u2 ->
  hostname u2 = hostname u1 ->
  pathname u2 = pathname u1 +:+ slashes k ->
  generateFileName env url2 = generateFileName env url1.
Proof.
  intros H1 H2 Hh Hp. unfold generateFileName.
  rewrite H1, H2, Hh, Hp, strip_trailing_slashes_app. reflexivity.
Qed.

Lemma trailing_slashes_collide_witness :
  URL_new sample_per_url "https://a.test/x" = Some {| hostname := "a.test"; pathname := "/x" |} /\
  URL_new sample_per_url "https://a.test/x//" = Some {| hostname := "a.test"; pathname := "/x//" |} /\
  generateFileName sample_per_url "https://a.test/x//"
  = generateFileName sample_per_url "https://a.test/x".
Proof.
  assert (URL_new sample_per_url "https://a.test/x"
          = Some {| hostname := "a.test"; pathname := "/x" |}) as H1
    by (vm_compute; reflexivity).
  assert (URL_new sample_per_url "https://a.test/x//"
          = Some {| hostname := "a.test"; pathname := "/x//" |}) as H2
    by (vm_compute; reflexivity).
  split; [exact H1 |]. split; [exact H2 |].
  exact (trailing_slashes_collide sample_per_url _ _ _ _ 2 H1 H2 eq_refl eq_refl).
Defined.

Lemma append_length (a b : string) :
  String.length (a +:+ b) = (String.length a + String.length b)%nat.
Proof.
  induction a as [| c a IH]; [reflexivity |].
  change (String c a +:+ b) with (String c (a +:+ b)).
  cbn [String.length]. rewrite IH. reflexivity.
Qed.

Lemma append_cancel_r (s a b : string) : a +:+ s = b +:+ s -> a = b.
Proof.
  revert b. induction a as [| c a IH]; intros [| d b] H.
  - reflexivity.
  - apply (f_equal String.length) in H. rewrite !append_length in H.
    cbn [String.length] in H. lia.
  - apply (f_equal String.length) in H. rewrite !append_length in H.
    cbn [String.length] in H. lia.
  - change (String c (a +:+ s) = String d (b +:+ s)) in H.
    injection H as -> H. f_equal. exact (IH b H).
Qed.

Lemma path_join_inj_r (d a b : string) : path_join d a = path_join d b -> a = b.
Proof.
  unfold path_join. intros H. apply append_cancel in H.
  change (String "/" a = String "/" b) in H. injection H as H. exact H.
Qed.

Lemma rawPath_inj env a b : rawPath env a = rawPath env b -> a = b.
Proof. intros H. apply path_join_inj_r in H. exact (append_cancel_r _ _ _ H). Qed.

Lemma cleanPath_inj env a b : cleanPath env a = cleanPath env b -> a = b.
Proof. intros H. apply path_join_inj_r in H. exact (append_cancel_r _ _ _ H). Qed.

Lemma rawPath_not_cleanPath env a b : rawPath env a <> cleanPath env b.
Proof.
  unfold rawPath, cleanPath, DIRS, path_join; cbn [raw_dir clean_dir].
  rewrite !append_assoc. intros H.
  apply append_cancel in H. cbv in H. discriminate H.
Qed.

(** X7: for file names that hold no slash, the ones for which the joined
    path is the directory, a slash and the name, the output paths keep the
    names apart: two names share a raw (or a clean) file only if they are
    equal, and no raw file is a clean file or a file of the reports
    directory, nor is a clean file. *)
Theorem output_paths_separate env a b :
  slash_free a = true ->
  slash_free b = true ->
  (rawPath env a = rawPath env b <-> a = b) /\
  (cleanPath env a = cleanPath env b <-> a = b) /\
  rawPath env a <> cleanPath env b /\
  (forall f, slash_free f = true ->
             rawPath env a <> path_join (reports_dir (DIRS env)) f) /\
  (forall f, slash_free f = true ->
             cleanPath env a <> path_join (reports_dir (DIRS env)) f).
Proof.
  intros _ _.
  split; [split; [apply rawPath_inj | intros ->; reflexivity] |].
  split; [split; [apply cleanPath_inj | intros ->; reflexivity] |].
  split; [apply rawPath_not_cleanPath |].
  split; intros f _; [apply rawPath_not_reports | apply cleanPath_not_reports].
Qed.

Lemma output_paths_separate_witness :
  slash_free "a.test_x" = true /\
  slash_free "a.test_y" = true /\
  (rawPath Sample.mixed "a.test_x" = rawPath Sample.mixed "a.test_y"
   <-> "a.test_x" = "a.test_y") /\
  rawPath Sample.mixed "a.test_x" <> cleanPath Sample.mixed "a.test_y" /\
  rawPath Sample.mixed "a.test_x" <> reportLatestPath Sample.mixed.
Proof.
  split; [reflexivity |]. split; [reflexivity |].
  destruct (output_paths_separate Sample.mixed "a.test_x" "a.test_y" eq_refl eq_refl)
    as (H1 & _ & H3 & H4 & _).
  split; [exact H1 |]. split; [exact H3 |].
  exact (H4 "report_latest.json" eq_refl).
Defined.

(** ** extractToMarkdown: what a success leaves, and what no call does *)

Lemma extract_success_inv env url st result st' :
  extractToMarkdown env url st = (Ret result, st') ->
  generateFileName env url = inr (fileName result) /\
  paths result = {| raw_path := rawPath env (fileName result);
                    clean_path := cleanPath env (fileName result) |} /\
  st' = set_files (<[cleanPath env (fileName result) := Text (clean result)]>
                     (<[rawPath env (fileName result) := Text (raw result)]> (files st)))
                  (add_events (stage_events env url (fileName result)) st).
Proof.
  rewrite extractToMarkdown_cases. unfold extraction_cases.
  destruct (axios_get env (trace st) url) as [e1 | html]; [discriminate |].
  destruct (turndown env html) as [e2 | rawMarkdown]; [discriminate |].
  destruct (axios_post env _ rawMarkdown url) as [e3 | cleanMarkdown]; [discriminate |].
  destruct (generateFileName env url) as [e4 | name]; [discriminate |].
  cbv zeta.
  destruct (write_error env _ (rawPath env name)) as [e5 |]; [discriminate |].
  destruct (clean_write env _ (cleanPath env name) cleanMarkdown) as [e6 | written];
    [discriminate |].
  intros [= <- <-]. repeat split.
Qed.

Lemma extract_success_files env url st result st' :
  extractToMarkdown env url st = (Ret result, st') ->
  generateFileName env url = inr (fileName result) /\
  raw_path (paths result) = rawPath env (fileName result) /\
  clean_path (paths result) = cleanPath env (fileName result) /\
  files st' !! raw_path (paths result) = Some (Text (raw result)) /\
  files st' !! clean_path (paths result) = Some (Text (clean result)) /\
  (forall p, p <> raw_path (paths result) -> p <> clean_path (paths result) ->
             files st' !! p = files st !! p).
Proof.
  intros H. destruct (extract_success_inv env url st result st' H) as (Hn & Hp & ->).
  rewrite Hp. cbn [raw_path clean_path files set_files].
  split; [exact Hn |]. split; [reflexivity |]. split; [reflexivity |].
  split; [| split].
  - rewrite lookup_insert_ne by (intros E; symmetry in E; exact (rawPath_not_cleanPath _ _ _ E)).
    apply lookup_insert_eq.
  - apply lookup_insert_eq.
  - intros p Hr Hc. rewrite !lookup_insert_ne by congruence. reflexivity.
Qed.

(** X8: a successful extraction leaves the raw markdown in the raw file and
    the clean markdown in the clean file, both named after the URL by
    [generateFileName] and returned in [paths]; reading them back gives the
    returned contents, and no other file changes. *)
Theorem extraction_persists env url st result st' :
  extractToMarkdown env url st = (Ret result, st') ->
  generateFileName env url = inr (fileName result) /\
  raw_path (paths result) = rawPath env (fileName result) /\
  clean_path (paths result) = cleanPath env (fileName result) /\
  files st' !! raw_path (paths result) = Some (Text (raw result)) /\
  files st' !! clean_path (paths result) = Some (Text (clean result)) /\
  (forall p, p <> raw_path (paths result) -> p <> clean_path (paths result) ->
             files st' !! p = files st !! p).
Proof. exact (extract_success_files env url st result st'). Qed.

Lemma extraction_persists_witness :
  sample_first = (Ret sample_first_result, snd sample_first) /\
  files (snd sample_first) !! "/app/output/raw/a.test_x.md"
  = Some (Text "raw:https://a.test/x") /\
  files (snd sample_first) !! "/app/output/clean/a.test_x.md"
  = Some (Text "clean:raw:https://a.test/x").
Proof.
  assert (extractToMarkdown sample_per_url "https://a.test/x" Sample.empty_state
          = (Ret sample_first_result, snd sample_first)) as H
    by (vm_compute; reflexivity).
  split; [exact H |].
  destruct (extraction_persists _ _ _ _ _ H) as (_ & _ & _ & Hr & Hc & _).
  split; [exact Hr | exact Hc].
Defined.

(** X9: nothing detects a collision of names: when a second URL with the
    same generated name is extracted, the files written for the first now
    hold the second page's markdown. *)
Theorem second_extraction_overwrites env url1 url2 st r1 st1 r2 st2 :
  extractToMarkdown env url1 st = (Ret r1, st1) ->
  extractToMarkdown env url2 st1 = (Ret r2, st2) ->
  fileName r2 = fileName r1 ->
  files st2 !! raw_path (paths r1) = Some (Text (raw r2)) /\
  files st2 !! clean_path (paths r1) = Some (Text (clean r2)).
Proof.
  intros H1 H2 Hn.
  destruct (extract_success_files env url1 st r1 st1 H1) as (_ & Hr1 & Hc1 & _).
  destruct (extract_success_files env url2 st1 r2 st2 H2) as (_ & Hr2 & Hc2 & Hr & Hc & _).
  rewrite Hr1, Hc1, <- Hn, <- Hr2, <- Hc2. split; assumption.
Qed.

Lemma second_extraction_overwrites_witness :
  sample_first = (Ret sample_first_result, snd sample_first) /\
  sample_second = (Ret sample_second_result, snd sample_second) /\
  fileName sample_second_result = fileName sample_first_result /\
  files (snd sample_second) !! "/app/output/raw/a.test_x.md"
  = Some (Text "raw:https://a.test/x/") /\
  files (snd sample_second) !! "/app/output/clean/a.test_x.md"
  = Some (Text "clean:raw:https://a.test/x/").
Proof.
  assert (extractToMarkdown sample_per_url "https://a.test/x" Sample.empty_state
          = (Ret sample_first_result, snd sample_first)) as H1
    by (vm_compute; reflexivity).
  assert (extractToMarkdown sample_per_url "https://a.test/x/" (snd sample_first)
          = (Ret sample_second_result, snd sample_second)) as H2
    by (vm_compute; reflexivity).
  split; [exact H1 |]. split; [exact H2 |]. split; [reflexivity |].
  exact (second_extraction_overwrites _ _ _ _ _ _ _ _ H1 H2 eq_refl).
Defined.

Lemma fetched_app t1 t2 : fetched (t1 ++ t2) = (fetched t1 ++ fetched t2)%list.
Proof. apply flat_map_app. Qed.

Lemma completions_app t1 t2 :
  completions (t1 ++ t2) = (completions t1 ++ completions t2)%list.
Proof. apply flat_map_app. Qed.

Lemma extraction_cases_fetched env url st :
  fetched (trace (snd (extraction_cases env url st))) = (fetched (trace st) ++ [url])%list.
Proof.
  unfold extraction_cases.
  repeat (match goal with |- context [match ?x with _ => _ end] => destruct x end);
    cbn [snd trace add_events set_files]; rewrite fetched_app; reflexivity.
Qed.

Lemma extraction_cases_completions env url st :
  completions (trace (snd (extraction_cases env url st)))
  = (completions (trace st) ++ completion_made env url st)%list.
Proof.
  unfold extraction_cases, completion_made.
  repeat (match goal with |- context [match ?x with _ => _ end] => destruct x end);
    cbn [snd trace add_events set_files]; rewrite completions_app; reflexivity.
Qed.

Lemma insert_keeps_file (m : gmap string file_data) k v p :
  is_Some (m !! p) -> is_Some (<[k := v]> m !! p).
Proof.
  intros Hp. destruct (decide (k = p)) as [-> | Hne].
  - rewrite lookup_insert_eq. eexists. reflexivity.
  - rewrite lookup_insert_ne by exact Hne. exact Hp.
Qed.

Lemma extraction_cases_files_kept env url st p :
  is_Some (files st !! p) -> is_Some (files (snd (extraction_cases env url st)) !! p).
Proof.
  intros Hp. unfold extraction_cases.
  repeat (match goal with |- context [match ?x with _ => _ end] => destruct x end);
    cbn [snd files add_events set_files]; try exact Hp;
    repeat apply insert_keeps_file; exact Hp.
Qed.

(** X10: whatever the services do, one extraction never ends the process,
    never touches the report or the directories, never waits, and never
    removes a file. *)
Theorem extraction_footprint env url st :
  (forall c, fst (extractToMarkdown env url st) <> Exit c) /\
  report (snd (extractToMarkdown env url st)) = report st /\
  dirs (snd (extractToMarkdown env url st)) = dirs st /\
  delays (trace (snd (extractToMarkdown env url st))) = delays (trace st) /\
  files_kept st (snd (extractToMarkdown env url st)).
Proof.
  rewrite extractToMarkdown_cases.
  split; [apply extraction_cases_no_exit |].
  split; [apply extraction_cases_report |].
  split; [apply extraction_cases_dirs |].
  split; [apply extraction_cases_delays |].
  intros p. apply extraction_cases_files_kept.
Qed.

(** X11: one extraction requests the page exactly once, success or not (no
    retry), and calls the completion service at most once, namely when and
    only when the page was fetched and converted. *)
Theorem extraction_requests env url st :
  fetched (trace (snd (extractToMarkdown env url st)))
  = (fetched (trace st) ++ [url])%list /\
  completions (trace (snd (extractToMarkdown env url st)))
  = (completions (trace st) ++
     match axios_get env (trace st) url with
     | inr html => match turndown env html with inr _ => [url] | inl _ => [] end
     | inl _ => []
     end)%list.
Proof.
  rewrite extractToMarkdown_cases.
  split; [apply extraction_cases_fetched | apply extraction_cases_completions].
Qed.

(** ** The loop, by induction on the list *)

Lemma for_of_loop_rel env (R : list string -> State -> State -> Prop) :
  (forall st, R [] st st) ->
  (forall url urls st r st1 st2,
      report st = Some r ->
      loop_cases env url r st = (Ret tt, st1) ->
      R urls st1 st2 ->
      R (url :: urls) st st2) ->
  forall urls st r,
    report st = Some r ->
    exists st', for_of urls (loop_body env) st = (Ret tt, st') /\ R urls st st'.
Proof.
  intros Hnil Hcons. induction urls as [| url urls IH]; intros st r Hr.
  - exists st. split; [reflexivity | apply Hnil].
  - destruct (loop_cases_post env url r st Hr) as (st1 & r1 & E1 & P1).
    destruct (IH st1 r1 (post_report _ _ _ _ _ _ P1)) as (st2 & E2 & HR).
    exists st2. split.
    + simpl. unfold bind. rewrite (loop_body_cases env url r st Hr), E1. exact E2.
    + exact (Hcons url urls st r st1 st2 Hr E1 HR).
Qed.

Lemma loop_cases_fetched env url r st st1 :
  loop_cases env url r st = (Ret tt, st1) ->
  fetched (trace st1) = (fetched (trace st) ++ [url])%list.
Proof.
  unfold loop_cases. pose proof (extraction_cases_fetched env url st) as Hf.
  destruct (extraction_cases env url st) as [[result | error | c] st0];
    intros [= <-]; cbn [snd trace add_events set_report] in *;
    rewrite fetched_app, Hf; apply app_nil_r.
Qed.

Lemma for_of_fetched env urls st r :
  report st = Some r ->
  exists st', for_of urls (loop_body env) st = (Ret tt, st') /\
              fetched (trace st') = (fetched (trace st) ++ urls)%list.
Proof.
  apply (for_of_loop_rel env
           (fun urls st st' => fetched (trace st') = (fetched (trace st) ++ urls)%list)).
  - intros st0. symmetry. apply app_nil_r.
  - intros url urls0 st0 r0 st1 st2 _ E1 H2.
    rewrite H2, (loop_cases_fetched env url r0 st0 st1 E1), <- app_assoc. reflexivity.
Qed.

(** The final state of a run that reaches the loop, with the loop's own
    equation. *)
Lemma main_run_loop env fs ds urls st1 :
  falsy (OPENAI_API_KEY env) = false ->
  usable (linksExtractor_json env) = Some urls ->
  createDirectories env (init_state fs ds) = (Ret tt, st1) ->
  exists st3 r,
    for_of urls (loop_body env) (fst (loop_start env urls st1)) = (Ret tt, st3) /\
    report st3 = Some r /\
    main env fs ds = save_cases env r st3.
Proof.
  intros Hkey Hlinks Hdirs.
  destruct (for_of_loop_body env urls (fst (loop_start env urls st1))
              (snd (loop_start env urls st1)) eq_refl) as (st3 & r & E & P).
  exists st3, r. split; [exact E |]. split; [exact (post_report _ _ _ _ _ _ P) |].
  rewrite main_eq_cases. unfold main_cases. rewrite Hkey, Hdirs, Hlinks.
  assert (run_links env urls (add_events [ReadFileSync (linksPath env)] st1)
          = (Ret tt, st3)) as ->.
  { unfold run_links, now, bind, get_trace, emit, ret. simpl. exact E. }
  apply save_report_cases. exact (post_report _ _ _ _ _ _ P).
Qed.

Lemma fetched_mkdir evs : Forall is_mkdir evs -> fetched evs = [].
Proof.
  induction 1 as [| ev evs [d ->] _ IH]; [reflexivity |]. exact IH.
Qed.

Lemma save_cases_fetched env r st :
  fetched (trace (snd (save_cases env r st))) = fetched (trace st).
Proof.
  unfold save_cases.
  repeat (match goal with |- context [match ?x with _ => _ end] => destruct x end);
    cbn [snd trace add_events set_files]; rewrite fetched_app; apply app_nil_r.
Qed.

(** X12: in a run that reaches the loop, the pages requested are exactly the
    URLs of the list, each once and in list order, failures included: no
    URL is skipped, retried or reordered. *)
Theorem each_url_fetched_once env fs ds urls r :
  linksExtractor_json env = LinksArray urls ->
  report (snd (main env fs ds)) = Some r ->
  fetched (trace (snd (main env fs ds))) = urls.
Proof.
  intros Hl Hr.
  destruct (main_report_inv env fs ds r Hr)
    as (urls' & st1 & _ & Hkey & Hlinks & Hdirs & _).
  assert (urls' = urls) as ->.
  { rewrite Hl in Hlinks. destruct urls as [| u us]; [discriminate Hlinks |].
    injection Hlinks as <-. reflexivity. }
  destruct (main_run_loop env fs ds urls st1 Hkey Hlinks Hdirs) as (st3 & r3 & E & Hr3 & Em).
  destruct (for_of_fetched env urls (fst (loop_start env urls st1))
              (snd (loop_start env urls st1)) eq_refl) as (st3' & E' & Hf).
  rewrite E in E'. injection E' as <-.
  rewrite Em, save_cases_fetched, Hf.
  destruct (createDirectories_emits env (init_state fs ds)) as (evs & Et & Fm).
  rewrite Hdirs in Et. simpl in Et.
  unfold loop_start. cbn [fst trace set_report add_events].
  rewrite Et, !fetched_app, (fetched_mkdir evs Fm). reflexivity.
Qed.

Lemma each_url_fetched_once_witness :
  linksExtractor_json Sample.mixed = LinksArray Sample.three_links /\
  report (snd (main Sample.mixed ∅ ∅)) = Some sample_mixed_report /\
  fetched (trace (snd (main Sample.mixed ∅ ∅))) = Sample.three_links.
Proof.
  assert (report (snd (main Sample.mixed ∅ ∅)) = Some sample_mixed_report) as Hr
    by (vm_compute; reflexivity).
  split; [reflexivity |]. split; [exact Hr |].
  exact (each_url_fetched_once Sample.mixed ∅ ∅ Sample.three_links sample_mixed_report
           eq_refl Hr).
Defined.

(** X13: the loop contains every failure: whatever the services do, running
    the list returns normally, neither throwing nor ending the process,
    and leaves a report. *)
Theorem run_links_returns env urls st :
  fst (run_links env urls st) = Ret tt /\
  is_Some (report (snd (run_links env urls st))).
Proof.
  destruct (run_links_post env urls st) as (st' & r' & E & P).
  rewrite E. split; [reflexivity |].
  exists r'. exact (post_report _ _ _ _ _ _ P).
Qed.

(** ** The report against its entries and the file tree *)

Lemma filter_split_length {A} (p : A -> bool) (l : list A) :
  (length (List.filter p l) + length (List.filter (fun x => negb (p x)) l))%nat = length l.
Proof.
  induction l as [| x l IH]; [reflexivity |].
  cbn [List.filter]. destruct (p x); cbn [negb length]; lia.
Qed.

(** X14: at the end of a run the counters agree with the entries:
    [successes] is the number of entries with status success, [errors] the
    number of entries with status error, and every URL has one of the
    two. *)
Theorem counters_match_entries env fs ds r :
  report (snd (main env fs ds)) = Some r ->
  successes r = Z.of_nat (length (List.filter is_success (details r))) /\
  errors r = Z.of_nat (length (List.filter is_failure (details r))) /\
  total r = Z.of_nat (length (details r)).
Proof.
  intros Hr.
  destruct (main_report_inv env fs ds r Hr) as (urls & _ & _ & _ & Hu & _).
  destruct (main_report_post env fs ds urls r Hu Hr) as (Ht & Hc & Hm & _ & Hs & _).
  pose proof (filter_split_length is_success (details r)) as Hl.
  assert (length (details r) = length urls) as Hlen
    by (rewrite <- Hm; symmetry; apply length_map).
  unfold is_failure. repeat split; lia.
Qed.

Lemma counters_match_entries_witness :
  report (snd (main Sample.mixed ∅ ∅)) = Some sample_mixed_report /\
  successes sample_mixed_report = 2%Z /\
  errors sample_mixed_report = 1%Z /\
  total sample_mixed_report = 3%Z.
Proof.
  assert (report (snd (main Sample.mixed ∅ ∅)) = Some sample_mixed_report) as Hr
    by (vm_compute; reflexivity).
  split; [exact Hr |].
  exact (counters_match_entries Sample.mixed ∅ ∅ sample_mixed_report Hr).
Defined.

(** X15: the run waits one second once per successful URL and never after
    a failed one: at the end the number of delays is the [successes]
    counter, so at most the number of URLs. *)
Theorem delays_count_successes env fs ds r :
  report (snd (main env fs ds)) = Some r ->
  Z.of_nat (delays (trace (snd (main env fs ds)))) = successes r /\
  (Z.of_nat (delays (trace (snd (main env fs ds)))) = total r - errors r)%Z.
Proof.
  intros Hr. pose proof (delays_equal_successes env fs ds r Hr) as Hd.
  destruct (main_report_inv env fs ds r Hr) as (urls & _ & _ & _ & Hu & _).
  destruct (main_report_post env fs ds urls r Hu Hr) as (_ & Hc & _).
  split; [exact Hd | lia].
Qed.

Lemma delays_count_successes_witness :
  report (snd (main Sample.mixed ∅ ∅)) = Some sample_mixed_report /\
  Z.of_nat (delays (trace (snd (main Sample.mixed ∅ ∅)))) = 2%Z /\
  (Z.of_nat (delays (trace (snd (main Sample.mixed ∅ ∅)))) = 3 - 1)%Z.
Proof.
  assert (report (snd (main Sample.mixed ∅ ∅)) = Some sample_mixed_report) as Hr
    by (vm_compute; reflexivity).
  split; [exact Hr |].
  exact (delays_count_successes Sample.mixed ∅ ∅ sample_mixed_report Hr).
Defined.

Lemma main_ret_inv env fs ds :
  fst (main env fs ds) = Ret tt ->
  exists r st3,
    report st3 = Some r /\ main env fs ds = save_cases env r st3.
Proof.
  intros Hret.
  destruct (falsy (OPENAI_API_KEY env)) eqn:Hkey.
  { rewrite main_eq_cases in Hret. unfold main_cases in Hret. rewrite Hkey in Hret.
    discriminate Hret. }
  destruct (createDirectories env (init_state fs ds)) as [[[] | e | c] st1] eqn:Hdirs.
  - destruct (usable (linksExtractor_json env)) as [urls |] eqn:Hlinks.
    + destruct (main_run_loop env fs ds urls st1 Hkey Hlinks Hdirs) as (st3 & r & _ & Hr & Em).
      exists r, st3. split; assumption.
    + rewrite main_eq_cases in Hret. unfold main_cases in Hret.
      rewrite Hkey, Hdirs, Hlinks in Hret. discriminate Hret.
  - rewrite main_eq_cases in Hret. unfold main_cases in Hret. rewrite Hkey, Hdirs in Hret.
    discriminate Hret.
  - rewrite main_eq_cases in Hret. unfold main_cases in Hret. rewrite Hkey, Hdirs in Hret.
    discriminate Hret.
Qed.

(** X16: when the process runs to its end, its last three acts are to read
    the clock and to write two files in the reports directory: the one
    named after that reading of the clock, colons and dots turned into
    hyphens, and [report_latest.json]; both hold the final report. *)
Theorem report_saved_twice env fs ds :
  fst (main env fs ds) = Ret tt ->
  exists r h,
    report (snd (main env fs ds)) = Some r /\
    trace (snd (main env fs ds)) =
    (h ++ [DateNow;
           WriteFileSync
             (path_join (reports_dir (DIRS env))
                ("report_" +:+ replace_colon_dot (toISOString env h) +:+ ".json"));
           WriteFileSync (path_join (reports_dir (DIRS env)) "report_latest.json")])%list /\
    files (snd (main env fs ds))
      !! path_join (reports_dir (DIRS env))
           ("report_" +:+ replace_colon_dot (toISOString env h) +:+ ".json")
    = Some (Json r) /\
    files (snd (main env fs ds))
      !! path_join (reports_dir (DIRS env)) "report_latest.json"
    = Some (Json r).
Proof.
  intros Hret. destruct (main_ret_inv env fs ds Hret) as (r & st3 & Hr & Em).
  rewrite Em in Hret |- *. exists r, (trace st3).
  rewrite save_cases_report. split; [exact Hr |].
  change (path_join (reports_dir (DIRS env))
            ("report_" +:+ replace_colon_dot (toISOString env (trace st3)) +:+ ".json"))
    with (reportPath env (toISOString env (trace st3))).
  change (path_join (reports_dir (DIRS env)) "report_latest.json")
    with (reportLatestPath env).
  unfold save_cases in *.
  destruct (write_error env _ _) as [e |]; [discriminate Hret |].
  destruct (write_error env _ _) as [e |]; [discriminate Hret |].
  cbn [snd files trace set_files add_events].
  split; [reflexivity |].
  split; [| apply lookup_insert_eq].
  destruct (decide (reportLatestPath env = reportPath env (toISOString env (trace st3))))
    as [E | Hne].
  - rewrite E. apply lookup_insert_eq.
  - rewrite lookup_insert_ne by exact Hne. apply lookup_insert_eq.
Qed.

Lemma report_saved_twice_witness :
  fst (main Sample.mixed ∅ ∅) = Ret tt /\
  exists r h,
    report (snd (main Sample.mixed ∅ ∅)) = Some r /\
    trace (snd (main Sample.mixed ∅ ∅)) =
    (h ++ [DateNow;
           WriteFileSync
             (path_join (reports_dir (DIRS Sample.mixed))
                ("report_" +:+ replace_colon_dot (toISOString Sample.mixed h) +:+ ".json"));
           WriteFileSync
             (path_join (reports_dir (DIRS Sample.mixed)) "report_latest.json")])%list /\
    files (snd (main Sample.mixed ∅ ∅))
      !! path_join (reports_dir (DIRS Sample.mixed))
           ("report_" +:+ replace_colon_dot (toISOString Sample.mixed h) +:+ ".json")
    = Some (Json r) /\
    files (snd (main Sample.mixed ∅ ∅))
      !! path_join (reports_dir (DIRS Sample.mixed)) "report_latest.json"
    = Some (Json r).
Proof.
  assert (fst (main Sample.mixed ∅ ∅) = Ret tt) as H by (vm_compute; reflexivity).
  split; [exact H |].
  exact (report_saved_twice Sample.mixed ∅ ∅ H).
Defined.

Lemma entry_files_present_mono (m m' : gmap string file_data) d :
  (forall p, is_Some (m !! p) -> is_Some (m' !! p)) ->
  entry_files_present m d -> entry_files_present m' d.
Proof.
  intros Hk. destruct d as [u n c rw s p | u e t]; [| intros _; exact I].
  intros [Hr Hc]. split; apply Hk; assumption.
Qed.

Lemma files_kept_refl st : files_kept st st.
Proof. intros p H. exact H. Qed.

Lemma files_kept_trans a b c : files_kept a b -> files_kept b c -> files_kept a c.
Proof. intros H1 H2 p Hp. apply H2, H1, Hp. Qed.

Lemma loop_cases_files env url r st st1 :
  report st = Some r ->
  loop_cases env url r st = (Ret tt, st1) ->
  files_kept st st1 /\ (entries_present st -> entries_present st1).
Proof.
  intros Hr. unfold loop_cases.
  pose proof (fun p => extraction_cases_files_kept env url st p) as Hk.
  pose proof (extractToMarkdown_cases env url st) as Hx.
  destruct (extraction_cases env url st) as [[result | error | c] st0];
    intros [= <-]; cbn [snd] in Hk.
  - split; [exact Hk |].
    intros Hp r1 [= <-]. cbn [files set_report add_events push_detail details].
    apply Forall_app. split.
    + eapply Forall_impl; [exact (Hp r Hr) |].
      intros d. apply entry_files_present_mono. exact Hk.
    + constructor; [| constructor].
      destruct (extract_success_files env url st result st0 Hx) as (_ & _ & _ & H1 & H2 & _).
      unfold success_detail, entry_files_present.
      split; [rewrite H1 | rewrite H2]; eexists; reflexivity.
  - split; [exact Hk |].
    intros Hp r1 [= <-]. cbn [files set_report add_events push_detail details].
    apply Forall_app. split.
    + eapply Forall_impl; [exact (Hp r Hr) |].
      intros d. apply entry_files_present_mono. exact Hk.
    + constructor; [exact I | constructor].
Qed.

Lemma for_of_files env urls st r :
  report st = Some r ->
  exists st', for_of urls (loop_body env) st = (Ret tt, st') /\
              files_kept st st' /\ (entries_present st -> entries_present st').
Proof.
  apply (for_of_loop_rel env
           (fun _ st st' => files_kept st st' /\ (entries_present st -> entries_present st'))).
  - intros st0. split; [apply files_kept_refl | auto].
  - intros url urls0 st0 r0 st1 st2 Hr0 E1 [Hk2 Hp2].
    destruct (loop_cases_files env url r0 st0 st1 Hr0 E1) as [Hk1 Hp1].
    split; [exact (files_kept_trans _ _ _ Hk1 Hk2) | auto].
Qed.

Lemma save_cases_files_kept env r st : files_kept st (snd (save_cases env r st)).
Proof.
  intros p Hp. unfold save_cases.
  repeat (match goal with |- context [match ?x with _ => _ end] => destruct x end);
    cbn [snd files add_events set_files]; try exact Hp;
    repeat apply insert_keeps_file; exact Hp.
Qed.

(** X17: at the end of a run, the raw file and the clean file named in
    every success entry of the report exist. *)
Theorem success_entries_have_files env fs ds r :
  report (snd (main env fs ds)) = Some r ->
  Forall (entry_files_present (files (snd (main env fs ds)))) (details r).
Proof.
  intros Hr.
  destruct (main_report_inv env fs ds r Hr)
    as (urls & st1 & _ & Hkey & Hlinks & Hdirs & _).
  destruct (main_run_loop env fs ds urls st1 Hkey Hlinks Hdirs) as (st3 & r3 & E & Hr3 & Em).
  destruct (for_of_files env urls (fst (loop_start env urls st1))
              (snd (loop_start env urls st1)) eq_refl) as (st3' & E' & _ & Hp).
  rewrite E in E'. injection E' as <-.
  rewrite Em in Hr |- *. rewrite save_cases_report, Hr3 in Hr. injection Hr as <-.
  eapply Forall_impl.
  - apply (Hp ltac:(intros r0 [= <-]; constructor) r3 Hr3).
  - intros d. apply entry_files_present_mono. apply save_cases_files_kept.
Qed.

Lemma success_entries_have_files_witness :
  report (snd (main Sample.mixed ∅ ∅)) = Some sample_mixed_report /\
  Forall (entry_files_present (files (snd (main Sample.mixed ∅ ∅))))
         (details sample_mixed_report).
Proof.
  assert (report (snd (main Sample.mixed ∅ ∅)) = Some sample_mixed_report) as Hr
    by (vm_compute; reflexivity).
  split; [exact Hr |].
  exact (success_entries_have_files Sample.mixed ∅ ∅ sample_mixed_report Hr).
Defined.

(** X18: the process never removes a file: whatever path held a file when
    it started holds one when it ends, however it ends. *)
Theorem main_keeps_files env fs ds p :
  is_Some (fs !! p) -> is_Some (files (snd (main env fs ds)) !! p).
Proof.
  intros Hp. rewrite main_eq_cases. unfold main_cases.
  destruct (falsy (OPENAI_API_KEY env)); [exact Hp |].
  pose proof (createDirectories_keeps_files env (init_state fs ds)) as Hfs.
  destruct (createDirectories env (init_state fs ds)) as [[[] | e | c] st1];
    cbn [snd files init_state] in Hfs; cbn [snd]; try (rewrite Hfs; exact Hp).
  destruct (usable (linksExtractor_json env)) as [urls |];
    [| cbn [snd files add_events]; rewrite Hfs; exact Hp].
  destruct (for_of_files env urls
              (fst (loop_start env urls st1)) (snd (loop_start env urls st1)) eq_refl)
    as (st3 & E & Hk & _).
  assert (run_links env urls (add_events [ReadFileSync (linksPath env)] st1)
          = (Ret tt, st3)) as ->.
  { unfold run_links, now, bind, get_trace, emit, ret. simpl. exact E. }
  assert (is_Some (files st3 !! p)) as H3.
  { apply Hk. unfold loop_start. cbn [fst files set_report add_events].
    rewrite Hfs. exact Hp. }
  destruct (for_of_loop_body env urls (fst (loop_start env urls st1))
              (snd (loop_start env urls st1)) eq_refl) as (st3' & r & E' & P).
  rewrite E in E'. injection E' as <-.
  rewrite (save_report_cases env r st3 (post_report _ _ _ _ _ _ P)).
  apply save_cases_files_kept. exact H3.
Qed.

Lemma main_keeps_files_witness :
  is_Some (({[ "/app/notes.txt" := Text "keep" ]} : gmap string file_data) !! "/app/notes.txt") /\
  is_Some (files (snd (main Sample.mixed {[ "/app/notes.txt" := Text "keep" ]} ∅))
             !! "/app/notes.txt").
Proof.
  assert (is_Some (({[ "/app/notes.txt" := Text "keep" ]} : gmap string file_data)
                     !! "/app/notes.txt")) as H
    by (eexists; vm_compute; reflexivity).
  split; [exact H |].
  exact (main_keeps_files Sample.mixed _ ∅ "/app/notes.txt" H).
Defined.

(** ** createDirectories *)

Lemma exists_in_mono st st' d :
  files st' = files st -> dirs st ⊆ dirs st' ->
  exists_in st d = true -> exists_in st' d = true.
Proof.
  intros Hf Hd. unfold exists_in. rewrite Hf.
  intros H. apply orb_true_iff in H as [H | H]; apply orb_true_iff; [left | right; exact H].
  apply bool_decide_eq_true in H. apply bool_decide_eq_true. set_solver.
Qed.

Lemma ensure_dir_cases env dir st :
  ensure_dir env dir st =
  if exists_in st dir then (Ret tt, st)
  else match mkdir_error env (trace st) dir with
       | Some e => (Throw e, add_events [MkdirSync dir] st)
       | None => (Ret tt, set_dirs ({[dir]} ∪ dirs st) (add_events [MkdirSync dir] st))
       end.
Proof.
  unfold ensure_dir, existsSync, mkdirSync, bind, get_trace, emit, throw, ret, exists_in.
  destruct (_ || _); [reflexivity |]. simpl.
  destruct (mkdir_error env (trace st) dir); reflexivity.
Qed.

Lemma ensure_dir_post env dir st :
  files (snd (ensure_dir env dir st)) = files st /\
  dirs st ⊆ dirs (snd (ensure_dir env dir st)) /\
  (fst (ensure_dir env dir st) = Ret tt ->
   exists_in (snd (ensure_dir env dir st)) dir = true).
Proof.
  rewrite ensure_dir_cases. destruct (exists_in st dir) eqn:E.
  - repeat split; [set_solver | intros _; exact E].
  - destruct (mkdir_error env (trace st) dir); cbn [fst snd files dirs set_dirs add_events].
    + repeat split; [set_solver | discriminate].
    + repeat split; [set_solver |]. intros _. unfold exists_in. cbn [dirs set_dirs].
      apply orb_true_iff. left. apply bool_decide_eq_true. set_solver.
Qed.

Lemma createDirectories_unfold env st :
  createDirectories env st =
  match ensure_dir env (raw_dir (DIRS env)) st with
  | (Ret _, st1) =>
      match ensure_dir env (clean_dir (DIRS env)) st1 with
      | (Ret _, st2) => ensure_dir env (reports_dir (DIRS env)) st2
      | (Throw e, st2) => (Throw e, st2)
      | (Exit c, st2) => (Exit c, st2)
      end
  | (Throw e, st1) => (Throw e, st1)
  | (Exit c, st1) => (Exit c, st1)
  end.
Proof.
  unfold createDirectories, bind.
  destruct (ensure_dir env (raw_dir (DIRS env)) st) as [[[] | e | c] st1]; reflexivity.
Qed.

(** With the three directories there, nothing is done. *)
Lemma createDirectories_present env st :
  Forall (fun d => exists_in st d = true) (output_dirs env) ->
  createDirectories env st = (Ret tt, st).
Proof.
  intros H. unfold output_dirs in H.
  inversion H as [| ? ? H1 H']; subst. inversion H' as [| ? ? H2 H'']; subst.
  inversion H'' as [| ? ? H3 _]; subst.
  change (exists_in st (raw_dir (DIRS env)) = true) in H1.
  change (exists_in st (clean_dir (DIRS env)) = true) in H2.
  change (exists_in st (reports_dir (DIRS env)) = true) in H3.
  rewrite createDirectories_unfold.
  rewrite ensure_dir_cases, H1. rewrite ensure_dir_cases, H2.
  rewrite ensure_dir_cases, H3. reflexivity.
Qed.

Lemma createDirectories_ensures env st :
  fst (createDirectories env st) = Ret tt ->
  Forall (fun d => exists_in (snd (createDirectories env st)) d = true) (output_dirs env).
Proof.
  rewrite createDirectories_unfold.
  destruct (ensure_dir_post env (raw_dir (DIRS env)) st) as (F1 & D1 & E1).
  destruct (ensure_dir env (raw_dir (DIRS env)) st) as [[[] | e | c] st1];
    try discriminate. cbn [fst snd] in *.
  destruct (ensure_dir_post env (clean_dir (DIRS env)) st1) as (F2 & D2 & E2).
  destruct (ensure_dir env (clean_dir (DIRS env)) st1) as [[[] | e | c] st2];
    try discriminate. cbn [fst snd] in *.
  destruct (ensure_dir_post env (reports_dir (DIRS env)) st2) as (F3 & D3 & E3).
  destruct (ensure_dir env (reports_dir (DIRS env)) st2) as [[[] | e | c] st3];
    try discriminate. cbn [fst snd] in *.
  intros _. unfold output_dirs. repeat constructor.
  - apply (exists_in_mono st2 st3); [exact F3 | exact D3 |].
    apply (exists_in_mono st1 st2); [exact F2 | exact D2 | exact (E1 eq_refl)].
  - apply (exists_in_mono st2 st3); [exact F3 | exact D3 | exact (E2 eq_refl)].
  - exact (E3 eq_refl).
Qed.

Lemma exists_in_directory st d :
  exists_in st d = true -> files st !! d = None -> d ∈ dirs st.
Proof.
  unfold exists_in. intros H Hf. apply orb_true_iff in H as [H | H].
  - apply bool_decide_eq_true in H. exact H.
  - apply bool_decide_eq_true in H. rewrite Hf in H. destruct H as [x H]. discriminate H.
Qed.

(** X19: when [createDirectories] returns, each of the raw, clean and
    reports paths is a directory, unless a regular file of that name was
    there (it is then left as it is); no file is touched; and calling
    [createDirectories] again does nothing at all: no mkdir, no change of
    state. *)
Theorem createDirectories_idempotent env st :
  fst (createDirectories env st) = Ret tt ->
  Forall (fun d => files st !! d = None -> d ∈ dirs (snd (createDirectories env st)))
         (output_dirs env) /\
  files (snd (createDirectories env st)) = files st /\
  createDirectories env (snd (createDirectories env st))
  = (Ret tt, snd (createDirectories env st)).
Proof.
  intros H. pose proof (createDirectories_ensures env st H) as He.
  pose proof (createDirectories_keeps_files env st) as Hf.
  split; [| split; [exact Hf | apply createDirectories_present; exact He]].
  eapply Forall_impl; [exact He |]. intros d Hd Hnone.
  apply exists_in_directory; [exact Hd |]. rewrite Hf. exact Hnone.
Qed.

Lemma createDirectories_idempotent_witness :
  fst (createDirectories Sample.mixed Sample.empty_state) = Ret tt /\
  Forall (fun d => files Sample.empty_state !! d = None ->
                   d ∈ dirs (snd (createDirectories Sample.mixed Sample.empty_state)))
         (output_dirs Sample.mixed) /\
  files (snd (createDirectories Sample.mixed Sample.empty_state))
  = files Sample.empty_state /\
  createDirectories Sample.mixed (snd (createDirectories Sample.mixed Sample.empty_state))
  = (Ret tt, snd (createDirectories Sample.mixed Sample.empty_state)).
Proof.
  assert (fst (createDirectories Sample.mixed Sample.empty_state) = Ret tt) as H
    by (vm_compute; reflexivity).
  split; [exact H |].
  exact (createDirectories_idempotent Sample.mixed Sample.empty_state H).
Defined.

(** X20: a directory that exists, be it as a directory or as a file of that
    name, is not created again; and the first mkdir that throws ends
    [createDirectories] with that error, the remaining directories not
    being tried. *)
Theorem createDirectories_first_failure env st e :
  exists_in st (raw_dir (DIRS env)) = true ->
  exists_in st (clean_dir (DIRS env)) = false ->
  mkdir_error env (trace st) (clean_dir (DIRS env)) = Some e ->
  createDirectories env st = (Throw e, add_events [MkdirSync (clean_dir (DIRS env))] st).
Proof.
  intros H1 H2 He.
  rewrite createDirectories_unfold.
  rewrite ensure_dir_cases, H1. rewrite ensure_dir_cases, H2, He. reflexivity.
Qed.

(** ** The time stamp in the report's file name *)

Lemma replace_colon_dot_length s :
  String.length (replace_colon_dot s) = String.length s.
Proof.
  induction s as [| c s IH]; [reflexivity |].
  cbn [replace_colon_dot String.length]. rewrite IH. reflexivity.
Qed.

Lemma replace_colon_dot_clean s c :
  In c (list_ascii_of_string (replace_colon_dot s)) -> c <> ":"%char /\ c <> "."%char.
Proof.
  induction s as [| d s IH]; [intros [] |].
  cbn [replace_colon_dot list_ascii_of_string]. intros [<- | H]; [| exact (IH H)].
  destruct ((code d =? 58) || (code d =? 46))%N eqn:E.
  - split; discriminate.
  - apply orb_false_iff in E as [E1 E2].
    split; intros ->; [discriminate E1 | discriminate E2].
Qed.

Lemma replace_colon_dot_id s :
  (forall c, In c (list_ascii_of_string s) -> c <> ":"%char /\ c <> "."%char) ->
  replace_colon_dot s = s.
Proof.
  induction s as [| d s IH]; [reflexivity |].
  intros H. cbn [replace_colon_dot].
  rewrite IH by (intros c Hc; apply H; right; exact Hc).
  destruct (H d (or_introl eq_refl)) as [H1 H2].
  destruct ((code d =? 58) || (code d =? 46))%N eqn:E; [| reflexivity].
  apply orb_true_iff in E as [E | E]; apply N.eqb_eq in E;
    apply (f_equal ascii_of_N) in E; unfold code in E; rewrite ascii_N_embedding in E;
    subst d; [destruct (H1 eq_refl) | destruct (H2 eq_refl)].
Qed.

(** X21: the time stamp enters the report's file name with every colon and
    dot turned into a hyphen: the result has the length of the time stamp
    and holds neither character, and applying the replacement again changes
    nothing. *)
Theorem report_stamp_sanitised ts :
  String.length (replace_colon_dot ts) = String.length ts /\
  (forall c, In c (list_ascii_of_string (replace_colon_dot ts)) ->
             c <> ":"%char /\ c <> "."%char) /\
  replace_colon_dot (replace_colon_dot ts) = replace_colon_dot ts.
Proof.
  split; [apply replace_colon_dot_length |].
  split; [apply replace_colon_dot_clean |].
  apply replace_colon_dot_id. apply replace_colon_dot_clean.
Qed.

(** ** A fatal abort comes after the directories *)

(** X22: the directories are created before the URL list is looked at: when
    the list turns out unusable, the process exits with status 1 having
    read the list file as its last act, and each of the three output paths
    that no regular file occupies is a directory all the same; no report
    is allocated and no file is written. *)
Theorem abort_leaves_directories env fs ds :
  falsy (OPENAI_API_KEY env) = false ->
  usable (linksExtractor_json env) = None ->
  fst (createDirectories env (init_state fs ds)) = Ret tt ->
  fst (main env fs ds) = Exit 1 /\
  Forall (fun d => fs !! d = None -> d ∈ dirs (snd (main env fs ds))) (output_dirs env) /\
  files (snd (main env fs ds)) = fs /\
  (exists evs, trace (snd (main env fs ds)) = (evs ++ [ReadFileSync (linksPath env)])%list /\
               Forall is_mkdir evs) /\
  report (snd (main env fs ds)) = None.
Proof.
  intros Hkey Hlinks Hdirs.
  pose proof (createDirectories_ensures env (init_state fs ds) Hdirs) as He.
  pose proof (createDirectories_keeps_report env (init_state fs ds)) as Hrep.
  pose proof (createDirectories_keeps_files env (init_state fs ds)) as Hfs.
  destruct (createDirectories_emits env (init_state fs ds)) as (evs & Et & Fm).
  rewrite main_eq_cases. unfold main_cases. rewrite Hkey.
  destruct (createDirectories env (init_state fs ds)) as [o st1].
  cbn [fst snd] in *. subst o. rewrite Hlinks. cbn [fst snd].
  split; [reflexivity |]. split; [| split; [| split]].
  - eapply Forall_impl; [exact He |]. intros d Hd Hnone.
    apply (exists_in_directory st1 d Hd). rewrite Hfs. exact Hnone.
  - exact Hfs.
  - exists evs. split; [| exact Fm]. cbn [trace add_events]. rewrite Et. reflexivity.
  - exact Hrep.
Qed.

Lemma abort_leaves_directories_witness :
  falsy (OPENAI_API_KEY (Sample.healthy LinksNotArray)) = false /\
  usable (linksExtractor_json (Sample.healthy LinksNotArray)) = None /\
  fst (createDirectories (Sample.healthy LinksNotArray) (init_state ∅ ∅)) = Ret tt /\
  fst (main (Sample.healthy LinksNotArray) ∅ ∅) = Exit 1 /\
  Forall (fun d => (∅ : gmap string file_data) !! d = None ->
                   d ∈ dirs (snd (main (Sample.healthy LinksNotArray) ∅ ∅)))
         (output_dirs (Sample.healthy LinksNotArray)).
Proof.
  assert (fst (createDirectories (Sample.healthy LinksNotArray) (init_state ∅ ∅)) = Ret tt)
    as H by (vm_compute; reflexivity).
  split; [reflexivity |]. split; [reflexivity |]. split; [exact H |].
  destruct (abort_leaves_directories (Sample.healthy LinksNotArray) ∅ ∅ eq_refl eq_refl H)
    as (H1 & H2 & _).
  split; [exact H1 | exact H2].
Defined.

Lemma createDirectories_first_failure_witness :
  exists_in sample_raw_dir_only (raw_dir (DIRS sample_mkdir_fails)) = true /\
  exists_in sample_raw_dir_only (clean_dir (DIRS sample_mkdir_fails)) = false /\
  mkdir_error sample_mkdir_fails (trace sample_raw_dir_only)
              (clean_dir (DIRS sample_mkdir_fails)) = Some Sample.denied /\
  createDirectories sample_mkdir_fails sample_raw_dir_only
  = (Throw Sample.denied,
     add_events [MkdirSync (clean_dir (DIRS sample_mkdir_fails))] sample_raw_dir_only).
Proof.
  assert (exists_in sample_raw_dir_only (raw_dir (DIRS sample_mkdir_fails)) = true) as H1
    by (vm_compute; reflexivity).
  assert (exists_in sample_raw_dir_only (clean_dir (DIRS sample_mkdir_fails)) = false) as H2
    by (vm_compute; reflexivity).
  split; [exact H1 |]. split; [exact H2 |]. split; [reflexivity |].
  exact (createDirectories_first_failure sample_mkdir_fails sample_raw_dir_only
           Sample.denied H1 H2 eq_refl).
Defined.

(** ** A page that cannot be fetched *)

(** X23: a URL whose fetch fails costs nothing further: the loop body
    makes no conversion, no completion request and no write, waits for
    nothing, and appends one error entry with the message of the fetch
    error to the report's details, adding one to [errors] and leaving the
    other counters as they were. *)
Theorem fetch_failure_recorded env url st r e :
  report st = Some r ->
  axios_get env (trace st) url = inl e ->
  exists st' r',
    loop_body env url st = (Ret tt, st') /\
    trace st' = (trace st ++ [HttpGet url; DateNow])%list /\
    files st' = files st /\
    report st' = Some r' /\
    details r' =
    (details r ++
     [Failure url (message e) (toISOString env (trace st ++ [HttpGet url])%list)])%list /\
    errors r' = (errors r + 1)%Z /\
    successes r' = successes r /\
    total r' = total r.
Proof.
  intros Hr Hget. rewrite (loop_body_cases env url r st Hr).
  unfold loop_cases, extraction_cases. rewrite Hget.
  eexists _, _. split; [reflexivity |].
  cbn [trace files report set_report add_events].
  rewrite <- app_assoc. repeat split.
Qed.

Lemma fetch_failure_recorded_witness :
  report (sample_started Sample.mixed) = Some (sample_report Sample.mixed) /\
  axios_get Sample.mixed (trace (sample_started Sample.mixed)) "https://b.test/missing"
  = inl Sample.not_found /\
  exists st' r',
    loop_body Sample.mixed "https://b.test/missing" (sample_started Sample.mixed)
    = (Ret tt, st') /\
    trace st' = [HttpGet "https://b.test/missing"; DateNow] /\
    files st' = files (sample_started Sample.mixed) /\
    report st' = Some r' /\
    details r' =
    [Failure "https://b.test/missing" "Request failed with status code 404"
             "2025-07-05T14:44:24.939Z"] /\
    errors r' = 1%Z /\
    successes r' = 0%Z /\
    total r' = 1%Z.
Proof.
  split; [reflexivity |]. split; [reflexivity |].
  exact (fetch_failure_recorded Sample.mixed "https://b.test/missing"
           (sample_started Sample.mixed) (sample_report Sample.mixed) Sample.not_found
           eq_refl eq_refl).
Defined.

(** ** An answer without content *)

(** X24: when the completion service answers with a message that has no
    content, [organizeMarkdown] returns [null] or [undefined] without
    throwing; the raw file is then written and the clean write throws a
    [TypeError] before it touches the clean file.  The URL is recorded as an
    error with that message, the raw file stays, and no delay follows. *)
Theorem answer_without_content env url st r html md content name e :
  report st = Some r ->
  axios_get env (trace st) url = inr html ->
  turndown env html = inr md ->
  axios_post env (trace st ++ [HttpGet url; Turndown])%list md url = inr content ->
  string_data content = inl e ->
  generateFileName env url = inr name ->
  write_error env (trace st ++ [HttpGet url; Turndown; ChatCompletion url; DateNow])%list
              (rawPath env name) = None ->
  (content = JNull \/ content = JUndefined) /\
  organizeMarkdown env md url (add_events [HttpGet url; Turndown] st)
  = (Ret content, add_events [HttpGet url; Turndown; ChatCompletion url] st) /\
  exists st' r' ts,
    loop_body env url st = (Ret tt, st') /\
    trace st' =
    (trace st ++ [HttpGet url; Turndown; ChatCompletion url; DateNow;
                  WriteFileSync (rawPath env name); WriteFileSync (cleanPath env name);
                  DateNow])%list /\
    files st' = <[rawPath env name := Text md]> (files st) /\
    report st' = Some r' /\
    details r' = (details r ++ [Failure url (message e) ts])%list /\
    errors r' = (errors r + 1)%Z /\
    successes r' = successes r.
Proof.
  intros Hr Hget Hconv Hpost Hdata Hname Hraw.
  split; [destruct content; [discriminate Hdata | left | right]; reflexivity |].
  split.
  { unfold organizeMarkdown, try_catch, bind, get_trace, emit, lift, add_events, ret.
    cbn [trace files dirs report]. rewrite Hpost. cbn. rewrite <- app_assoc.
    reflexivity. }
  rewrite (loop_body_cases env url r st Hr).
  unfold loop_cases, extraction_cases. rewrite Hget, Hconv, Hpost, Hname. cbv zeta.
  change (take 4 (stage_events env url name))
    with [HttpGet url; Turndown; ChatCompletion url; DateNow].
  rewrite Hraw. unfold clean_write. rewrite Hdata.
  eexists _, _, _. split; [reflexivity |].
  cbn [trace files report set_report set_files add_events stage_events].
  rewrite <- app_assoc. repeat split.
Qed.

Lemma answer_without_content_witness :
  exists st' r' ts,
    loop_body Sample.no_content Sample.a_test_x (sample_started Sample.no_content)
    = (Ret tt, st') /\
    files st' = <[rawPath Sample.no_content "a.test_x" := Text Sample.page_raw]>
                  (files (sample_started Sample.no_content)) /\
    report st' = Some r' /\
    details r' =
    [Failure Sample.a_test_x (message (invalid_data "null")) ts] /\
    errors r' = 1%Z /\
    successes r' = 0%Z.
Proof.
  destruct (answer_without_content Sample.no_content Sample.a_test_x
              (sample_started Sample.no_content) (sample_report Sample.no_content)
              Sample.page_html Sample.page_raw JNull "a.test_x" (invalid_data "null")
              ltac:(reflexivity) ltac:(reflexivity) ltac:(reflexivity) ltac:(reflexivity)
              ltac:(reflexivity) ltac:(vm_compute; reflexivity)
              ltac:(vm_compute; reflexivity))
    as (_ & _ & st' & r' & ts & H1 & _ & H3 & H4 & H5 & H6 & H7).
  exists st', r', ts. repeat split; assumption.
Defined.
